(** * routeBall: frame capture, rotating storage and live view

    A shallow embedding of the Python sources
    [routeball/config.py], [routeball/capture.py], [routeball/storage.py],
    [routeball/stream.py] and [main.py].

    Python objects are records, attribute assignment is a functional
    update, and every method is a computation in a state-and-exception
    monad: an exception leaves the mutations made before it in place,
    as in Python.  The libraries the program calls (OpenCV, [pathlib]
    and the file system, the clock, [adb]) are not part of the
    repository.  What the program depends on is modelled: how
    [pathlib] joins paths and when [mkdir] fails, that a video writer
    starts its file with a header and skips a frame that has not its
    size.  What they answer beyond that is read from the [World] and
    from the [Cv2] record of oracles, about which nothing is
    assumed. *)

From Stdlib Require Import ZArith Lia String Ascii List Bool.
From stdpp Require Import base tactics option list gmap strings pretty.

Local Open Scope Z_scope.

(** ** Values *)

(** A numpy image: [shape[:2]] is [(shape_h, shape_w)]. *)
Record ndarray := mk_ndarray {
  shape_h : Z;
  shape_w : Z;
  pixels : list Z
}.

(** The exceptions the program raises or lets through.  [IOError] is
    the one the program raises itself ([raise IOError(...)]);
    [FileExistsError] and [NotADirectoryError] come from [mkdir],
    [AttributeError] from an attribute an object does not have,
    [TypeError] from a call with the wrong number of arguments. *)
Inductive exn :=
| IOError (msg : string)
| RuntimeError (msg : string)
| ConnectionError (msg : string)
| ValueError (msg : string)
| AttributeError (msg : string)
| TypeError (msg : string)
| FileExistsError (path : string)
| NotADirectoryError (path : string)
| FileNotFoundError
| SystemExit (code : Z).

Inductive outcome (A : Type) :=
| Return (a : A)
| Raise (e : exn).
Arguments Return {A} a.
Arguments Raise {A} e.

(** ** The world outside the Python objects *)

(** A regular file written by a [cv2.VideoWriter]. *)
Record File := mk_File {
  st_size : Z;
  frames : list ndarray
}.

(** Calls that leave the process, in program order.  [EvSleep] stands
    for [time.sleep], which none of the functions below calls. *)
Inductive Event :=
| EvMkdir (dir : string)
| EvVideoWriter (path codec : string) (fps width height : Z) (opened : bool)
| EvWrite (path : string) (frame : ndarray)
| EvWriterRelease (path : string)
| EvSubprocess (cmd : list string)
| EvVideoCapture (source : string) (opened : bool)
| EvRead (source : string) (ok : bool)
| EvCaptureRelease (source : string)
| EvServe (host : string) (port : Z)
| EvSleep (seconds : Z).

(** A record handed to [logging]: level and format string. *)
Record LogRecord := mk_log { level : string; fmt : string }.

Record World := mk_World {
  now : string;                      (* datetime.now().strftime("%Y%m%d_%H%M%S") *)
  fs : gmap string File;             (* regular files, by path *)
  dirs : gset string;                (* directories *)
  heap : list ndarray;               (* numpy arrays, by reference *)
  camera : list (option ndarray);    (* what the next cap.read() calls deliver *)
  adb_devices : option string;       (* stdout of `adb devices`; None: no adb *)
  trace : list Event;
  log : list LogRecord
}.

Definition set_fs (f : gmap string File -> gmap string File) (w : World) : World :=
  mk_World (now w) (f (fs w)) (dirs w) (heap w) (camera w) (adb_devices w) (trace w) (log w).
Definition set_dirs (f : gset string -> gset string) (w : World) : World :=
  mk_World (now w) (fs w) (f (dirs w)) (heap w) (camera w) (adb_devices w) (trace w) (log w).
Definition set_heap (f : list ndarray -> list ndarray) (w : World) : World :=
  mk_World (now w) (fs w) (dirs w) (f (heap w)) (camera w) (adb_devices w) (trace w) (log w).
Definition set_camera (f : list (option ndarray) -> list (option ndarray)) (w : World) : World :=
  mk_World (now w) (fs w) (dirs w) (heap w) (f (camera w)) (adb_devices w) (trace w) (log w).
Definition emit (e : Event) (w : World) : World :=
  mk_World (now w) (fs w) (dirs w) (heap w) (camera w) (adb_devices w) (trace w ++ [e]) (log w).
Definition logger (lvl msg : string) (w : World) : World :=
  mk_World (now w) (fs w) (dirs w) (heap w) (camera w) (adb_devices w) (trace w)
           (log w ++ [mk_log lvl msg]).

(** The world with its log dropped: what the objects and the devices see. *)
Definition unlogged (w : World) : World :=
  mk_World (now w) (fs w) (dirs w) (heap w) (camera w) (adb_devices w) (trace w) [].

(** OpenCV, as far as the program looks at it. *)
Record Cv2 := mk_Cv2 {
  (* cv2.VideoWriter(path, fourcc, fps, (w, h)).isOpened() *)
  VideoWriter_isOpened : string -> string -> Z -> Z -> Z -> bool;
  (* bytes of the container header such a writer has put in its file
     when the constructor returns *)
  VideoWriter_header : string -> string -> Z -> Z -> Z -> Z;
  (* bytes one write() of a frame the writer accepts adds to the file *)
  VideoWriter_bytes : ndarray -> Z;
  (* cv2.VideoCapture(source).isOpened() *)
  VideoCapture_isOpened : string -> bool;
  (* cv2.imencode(".jpg", frame, [IMWRITE_JPEG_QUALITY, q]): None when ret is False *)
  imencode : string -> ndarray -> Z -> option (list Z)
}.

(** ** State and exceptions *)

Definition M (S A : Type) : Type := S -> outcome A * S.

Global Instance M_ret {S} : MRet (M S) := fun A a s => (Return a, s).
Global Instance M_bind {S} : MBind (M S) := fun A B f m s =>
  match m s with
  | (Return a, s') => f a s'
  | (Raise e, s') => (Raise e, s')
  end.

Definition raise {S A} (e : exn) : M S A := fun s => (Raise e, s).
Definition get {S} : M S S := fun s => (Return s, s).
Definition modify {S} (f : S -> S) : M S unit := fun s => (Return tt, f s).

(** [try: m except h]: [h] decides which exceptions it handles. *)
Definition try_except {S A} (m : M S A) (h : exn -> option (M S A)) : M S A := fun s =>
  match m s with
  | (Return a, s') => (Return a, s')
  | (Raise e, s') => match h e with
                     | Some k => k s'
                     | None => (Raise e, s')
                     end
  end.

(** Run a computation on one component of a larger state. *)
Definition zoom {S T A} (proj : T -> S) (inj : S -> T -> T) (m : M S A) : M T A := fun t =>
  let '(r, s') := m (proj t) in (r, inj s' t).

(** ** pathlib *)

(** A [pathlib.Path] on a POSIX system: its root ([""], ["/"] or
    ["//"]) and the parts behind it, none of them empty or ["."]. *)
Record Path := mk_Path {
  root : string;
  segments : list string
}.

(** [s.split("/")] *)
Fixpoint split_slash (s : string) : list string :=
  match s with
  | EmptyString => [EmptyString]
  | String c rest =>
      if Ascii.eqb c "/"%char then EmptyString :: split_slash rest
      else match split_slash rest with
           | seg :: segs => String c seg :: segs
           | [] => [String c EmptyString]
           end
  end.

(** The root [posixpath.splitroot] finds: one slash, or two when
    exactly two lead. *)
Definition splitroot (s : string) : string :=
  match s with
  | String "/" (String "/" (String "/" _)) => "/"
  | String "/" (String "/" _) => "//"
  | String "/" _ => "/"
  | _ => EmptyString
  end.

Definition is_part (seg : string) : bool :=
  negb (String.eqb seg EmptyString) && negb (String.eqb seg ".").

(** [Path(s)] *)
Definition Path_of_str (s : string) : Path :=
  mk_Path (splitroot s) (List.filter is_part (split_slash s)).

(** [str(p)] *)
Definition Path_str (p : Path) : string :=
  match root p, segments p with
  | EmptyString, [] => "."
  | r, t => r +:+ String.concat "/" t
  end.

(** [p / key] for a string [key]: an absolute [key] replaces [p]. *)
Definition Path_truediv (p : Path) (key : string) : Path :=
  if String.prefix "/" key then Path_of_str key
  else mk_Path (root p) (segments p ++ segments (Path_of_str key)).

(** The directories between the root (or the working directory) and
    [p], outermost first. *)
Definition Path_ancestors (p : Path) : list Path :=
  map (fun k => mk_Path (root p) (take k (segments p))) (seq 1 (length (segments p) - 1)).

(** What a field annotated [Path] holds: a dataclass does not check
    its annotations, and main.py stores the [str] that argparse
    returns. *)
Inductive PathOrStr :=
| PosixPath (p : Path)
| PyStr (s : string).

(** ** config.py *)

Record CaptureConfig := mk_CaptureConfig {
  mode : string;
  rtsp_url : string;
  adb_serial : option string;
  width : Z;
  height : Z;
  fps : Z
}.

Record StorageConfig := mk_StorageConfig {
  output_dir : PathOrStr;
  filename_prefix : string;
  max_file_size_mb : Z;
  codec : string;
  container : string
}.

Record StreamConfig := mk_StreamConfig {
  host : string;
  port : Z;
  jpeg_quality : Z
}.

Record AppConfig := mk_AppConfig {
  capture : CaptureConfig;
  storage : StorageConfig;
  stream : StreamConfig;
  save_locally : bool;
  enable_streaming : bool
}.

Definition default_CaptureConfig : CaptureConfig :=
  mk_CaptureConfig "adb" "rtsp://192.168.1.100:8554/camera" None 1280 720 30.
Definition default_StorageConfig : StorageConfig :=
  mk_StorageConfig (PosixPath (Path_of_str "recordings")) "routeball" 500 "mp4v" ".mp4".
Definition default_StreamConfig : StreamConfig :=
  mk_StreamConfig "0.0.0.0" 8000 80.

(** ** storage.py *)

Module Storage.

(** A [cv2.VideoWriter] object. *)
Record VideoWriter := mk_VideoWriter {
  vw_path : string;
  vw_fourcc : string;
  vw_fps : Z;
  vw_width : Z;
  vw_height : Z;
  vw_opened : bool
}.

Record VideoStorage := mk_VideoStorage {
  config : StorageConfig;
  _writer : option VideoWriter;
  _current_path : option Path;
  _frame_count : Z;
  _fps : Z
}.

Definition St : Type := VideoStorage * World.

Definition self : M St VideoStorage := fun s => (Return (fst s), s).
Definition world : M St World := fun s => (Return (snd s), s).
Definition setattr (f : VideoStorage -> VideoStorage) : M St unit := modify (fun s => (f (fst s), snd s)).
Definition effect (f : World -> World) : M St unit := modify (fun s => (fst s, f (snd s))).

Definition set_writer (v : option VideoWriter) (s : VideoStorage) : VideoStorage :=
  mk_VideoStorage (config s) v (_current_path s) (_frame_count s) (_fps s).
Definition set_current_path (v : option Path) (s : VideoStorage) : VideoStorage :=
  mk_VideoStorage (config s) (_writer s) v (_frame_count s) (_fps s).
Definition set_frame_count (v : Z) (s : VideoStorage) : VideoStorage :=
  mk_VideoStorage (config s) (_writer s) (_current_path s) v (_fps s).
Definition set_fps (v : Z) (s : VideoStorage) : VideoStorage :=
  mk_VideoStorage (config s) (_writer s) (_current_path s) (_frame_count s) v.

Definition __init__ (cfg : StorageConfig) : VideoStorage :=
  mk_VideoStorage cfg None None 0 30.

(** A regular file stands at [p].  Files are known by the path the
    program names them with. *)
Definition is_file (files : gmap string File) (p : Path) : bool :=
  match files !! Path_str p with
  | Some _ => true
  | None => false
  end.

(** The exception of [dir.mkdir(parents=True, exist_ok=True)], if it
    raises one: a regular file stands where a directory is needed. *)
Definition mkdir_error (dir : Path) (files : gmap string File) : option exn :=
  if existsb (is_file files) (Path_ancestors dir) then Some (NotADirectoryError (Path_str dir))
  else if is_file files dir then Some (FileExistsError (Path_str dir))
  else None.

(** [dir.mkdir(parents=True, exist_ok=True)] *)
Definition Path_mkdir (dir : Path) : M St unit :=
  effect (emit (EvMkdir (Path_str dir))) ;;
  w ← world ;
  match mkdir_error dir (fs w) with
  | Some e => raise e
  | None =>
      effect (set_dirs (fun d => list_to_set (map Path_str (Path_ancestors dir ++ [dir])) ∪ d))
  end.

(** [cv2.VideoWriter_fourcc], called with the characters of [codec]
    as its arguments: it takes four. *)
Definition VideoWriter_fourcc (codec : string) : M St string :=
  if Nat.eqb (String.length codec) 4 then mret codec
  else raise (TypeError "VideoWriter_fourcc() takes 4 arguments").

(** [writer.write(frame)] stores a frame when the writer is opened
    and the frame has the writer's width and height; any other frame
    is skipped. *)
Definition accepts (wr : VideoWriter) (frame : ndarray) : bool :=
  vw_opened wr && (shape_w frame =? vw_width wr) && (shape_h frame =? vw_height wr).

Section WithCv2.
Variable cv2 : Cv2.

(** [cv2.VideoWriter(path, fourcc, fps, (w, h))]: an opened writer
    creates (or truncates) its file and writes the container header. *)
Definition new_VideoWriter (path fourcc : string) (fps w h : Z) : M St VideoWriter :=
  let ok := VideoWriter_isOpened cv2 path fourcc fps w h in
  effect (emit (EvVideoWriter path fourcc fps w h ok)) ;;
  (if ok then
     effect (set_fs <[path := mk_File (VideoWriter_header cv2 path fourcc fps w h) []]>)
   else mret tt) ;;
  mret (mk_VideoWriter path fourcc fps w h ok).

(** [writer.write(frame)] *)
Definition VideoWriter_write (wr : VideoWriter) (frame : ndarray) : M St unit :=
  effect (emit (EvWrite (vw_path wr) frame)) ;;
  if accepts wr frame then
    effect (set_fs (alter (fun f => mk_File (st_size f + VideoWriter_bytes cv2 frame)
                                            (frames f ++ [frame])) (vw_path wr)))
  else mret tt.

(** [writer.release()] *)
Definition VideoWriter_release (wr : VideoWriter) : M St unit :=
  effect (emit (EvWriterRelease (vw_path wr))).

Definition open (width height fps : Z) : M St Path :=
  setattr (set_fps fps) ;;
  s ← self ;
  dir ← match output_dir (config s) with
        | PosixPath dir => Path_mkdir dir ;; mret dir
        | PyStr _ => raise (AttributeError "'str' object has no attribute 'mkdir'")
        end ;
  w ← world ;
  let timestamp := now w in
  let filename := filename_prefix (config s) +:+ "_" +:+ timestamp +:+ container (config s) in
  let path := Path_truediv dir filename in
  setattr (set_current_path (Some path)) ;;
  fourcc ← VideoWriter_fourcc (codec (config s)) ;
  wr ← new_VideoWriter (Path_str path) fourcc fps width height ;
  setattr (set_writer (Some wr)) ;;
  if negb (vw_opened wr) then
    raise (IOError ("Failed to open video writer: " +:+ Path_str path))
  else
    setattr (set_frame_count 0) ;;
    effect (logger "INFO" "Recording to %s") ;;
    mret path.

Definition close : M St unit :=
  s ← self ;
  match _writer s with
  | Some wr =>
      VideoWriter_release wr ;;
      setattr (set_writer None) ;;
      effect (logger "INFO" "Recording saved: %s (%d frames)")
  | None => mret tt
  end.

(** [size_mb >= max_file_size_mb] with [size_mb = st_size / (1024 * 1024)]:
    the float division by a power of two is exact for the size of any
    file, so the comparison is the one between [st_size] and
    [max_file_size_mb * 1024 * 1024]. *)
Definition _should_rotate : M St bool :=
  s ← self ;
  if max_file_size_mb (config s) <=? 0 then mret false
  else
    match _current_path s with
    | None => mret false
    | Some path =>
        w ← world ;
        match fs w !! Path_str path with
        | Some f => mret (max_file_size_mb (config s) * (1024 * 1024) <=? st_size f)
        | None => mret false            (* except FileNotFoundError *)
        end
    end.

Definition write_frame (frame : ndarray) : M St unit :=
  s ← self ;
  match _writer s with
  | None => raise (RuntimeError "Storage not opened. Call open() first.")
  | Some wr =>
      VideoWriter_write wr frame ;;
      setattr (fun s => set_frame_count (_frame_count s + 1) s) ;;
      rotate ← _should_rotate ;
      if (rotate : bool) then
        let h := shape_h frame in
        let w := shape_w frame in
        close ;;
        s ← self ;
        open w h (_fps s) ;;
        mret tt
      else mret tt
  end.

Definition is_recording (s : VideoStorage) : bool :=
  match _writer s with
  | Some wr => vw_opened wr
  | None => false
  end.

Definition current_file (s : VideoStorage) : option Path := _current_path s.

End WithCv2.

End Storage.

(** ** capture.py *)

(** [sub in s] on Python strings. *)
Fixpoint str_in (sub s : string) : bool :=
  String.prefix sub s ||
  match s with
  | EmptyString => false
  | String _ rest => str_in sub rest
  end.

(** [s.split("\n", 1)[-1]]: what follows the first newline, or all of
    [s] when it has none. *)
Fixpoint after_newline (s : string) : option string :=
  match s with
  | EmptyString => None
  | String c rest => if Ascii.eqb c "010"%char then Some rest else after_newline rest
  end.

Definition split_newline_last (s : string) : string :=
  match after_newline s with
  | Some rest => rest
  | None => s
  end.

Module Capture.

(** A [cv2.VideoCapture] object. *)
Record VideoCapture := mk_VideoCapture {
  vc_source : string;
  vc_opened : bool
}.

(** [_latest_frame] holds a reference to an array on the heap; [_lock]
    has no field: a [with self._lock] block is one step here. *)
Record GlassCapture := mk_GlassCapture {
  config : CaptureConfig;
  _cap : option VideoCapture;
  _running : bool;
  _latest_frame : option nat
}.

Definition St : Type := GlassCapture * World.

Definition self : M St GlassCapture := fun s => (Return (fst s), s).
Definition world : M St World := fun s => (Return (snd s), s).
Definition setattr (f : GlassCapture -> GlassCapture) : M St unit := modify (fun s => (f (fst s), snd s)).
Definition effect (f : World -> World) : M St unit := modify (fun s => (fst s, f (snd s))).

Definition set_cap (v : option VideoCapture) (s : GlassCapture) : GlassCapture :=
  mk_GlassCapture (config s) v (_running s) (_latest_frame s).
Definition set_running (v : bool) (s : GlassCapture) : GlassCapture :=
  mk_GlassCapture (config s) (_cap s) v (_latest_frame s).
Definition set_latest_frame (v : option nat) (s : GlassCapture) : GlassCapture :=
  mk_GlassCapture (config s) (_cap s) (_running s) v.

Definition __init__ (cfg : CaptureConfig) : GlassCapture :=
  mk_GlassCapture cfg None false None.

(** A new array on the heap; its reference is the next free index. *)
Definition alloc (a : ndarray) : M St nat :=
  w ← world ;
  effect (set_heap (fun h => h ++ [a])) ;;
  mret (length (heap w)).

(** [arr.copy()]; a reference outside the heap cannot arise from the
    operations below. *)
Definition ndarray_copy (r : nat) : M St nat :=
  w ← world ;
  match heap w !! r with
  | Some a => alloc a
  | None => raise (RuntimeError "invalid array reference")
  end.

(** In-place assignment to the array behind a reference ([arr[...] = a]). *)
Definition ndarray_assign (r : nat) (a : ndarray) (w : World) : World :=
  set_heap <[r := a]> w.

(** [subprocess.run(cmd, capture_output=True, text=True).stdout] *)
Definition subprocess_run (cmd : list string) : M St string :=
  w ← world ;
  match adb_devices w with
  | Some out => effect (emit (EvSubprocess cmd)) ;; mret out
  | None => raise FileNotFoundError
  end.

Section WithCv2.
Variable cv2 : Cv2.

Definition new_VideoCapture (source : string) : M St VideoCapture :=
  let ok := VideoCapture_isOpened cv2 source in
  effect (emit (EvVideoCapture source ok)) ;;
  mret (mk_VideoCapture source ok).

(** [cap.read()]: [(True, frame)] with a new array, or [(False, None)]. *)
Definition VideoCapture_read (cap : VideoCapture) : M St (option nat) :=
  if vc_opened cap then
    w ← world ;
    match camera w with
    | Some img :: rest =>
        effect (set_camera (fun _ => rest)) ;;
        effect (emit (EvRead (vc_source cap) true)) ;;
        r ← alloc img ;
        mret (Some r)
    | None :: rest =>
        effect (set_camera (fun _ => rest)) ;;
        effect (emit (EvRead (vc_source cap) false)) ;;
        mret None
    | [] =>
        effect (emit (EvRead (vc_source cap) false)) ;;
        mret None
    end
  else
    effect (emit (EvRead (vc_source cap) false)) ;;
    mret None.

Definition VideoCapture_release (cap : VideoCapture) : M St unit :=
  effect (emit (EvCaptureRelease (vc_source cap))).

Definition _start_rtsp : M St unit :=
  s ← self ;
  cap ← new_VideoCapture (rtsp_url (config s)) ;
  setattr (set_cap (Some cap)) ;;
  if negb (vc_opened cap) then
    raise (ConnectionError ("Cannot connect to RTSP stream: " +:+ rtsp_url (config s)))
  else mret tt.

Definition _start_adb : M St unit :=
  s ← self ;
  let serial_args :=
    match adb_serial (config s) with
    | Some serial => if String.eqb serial EmptyString then [] else ["-s"; serial]
    | None => []
    end in
  stdout ← subprocess_run (["adb"] ++ serial_args ++ ["devices"]) ;
  if negb (str_in "device" (split_newline_last stdout)) then
    raise (ConnectionError "No ADB device found. Connect glasses via USB or WiFi ADB.")
  else
    let size := pretty (width (config s)) +:+ "x" +:+ pretty (height (config s)) in
    let adb_cmd :=
      ["adb"] ++ serial_args ++
      ["exec-out"; "screenrecord"; "--output-format=h264"; "--size=" +:+ size; "-"] in
    let pipeline :=
      String.concat " " adb_cmd +:+ " | " +:+
      "ffmpeg -i pipe:0 -f rawvideo -pix_fmt bgr24 " +:+
      "-s " +:+ size +:+ " pipe:1" in
    cap ← new_VideoCapture pipeline ;
    setattr (set_cap (Some cap)) ;;
    if negb (vc_opened cap) then
      raise (ConnectionError "Failed to open ADB capture pipeline.")
    else mret tt.

Definition start : M St unit :=
  s ← self ;
  (if String.eqb (mode (config s)) "rtsp" then _start_rtsp
   else if String.eqb (mode (config s)) "adb" then _start_adb
   else raise (ValueError ("Unknown capture mode: " +:+ mode (config s)))) ;;
  setattr (set_running true) ;;
  effect (logger "INFO" "Capture started (mode=%s)").

Definition read_frame : M St (option nat) :=
  s ← self ;
  match _cap s with
  | None => mret None
  | Some cap =>
      if negb (_running s) then mret None
      else
        r ← VideoCapture_read cap ;
        match r with
        | None => effect (logger "WARNING" "Failed to read frame") ;; mret None
        | Some frame =>
            setattr (set_latest_frame (Some frame)) ;;
            mret (Some frame)
        end
  end.

Definition latest_frame : M St (option nat) :=
  s ← self ;
  match _latest_frame s with
  | Some r => r' ← ndarray_copy r ; mret (Some r')
  | None => mret None
  end.

Definition stop : M St unit :=
  setattr (set_running false) ;;
  s ← self ;
  match _cap s with
  | Some cap => VideoCapture_release cap ;; setattr (set_cap None)
  | None => mret tt
  end ;;
  effect (logger "INFO" "Capture stopped").

Definition is_running (s : GlassCapture) : bool := _running s.

(** [run_loop], for [fuel] iterations at most: [None] when the loop is
    still running after them.  [call] runs a method of this object in
    the caller's state [T]; [signals i] is the handler the interpreter
    runs in the main thread before iteration [i], when a signal is
    pending then. *)
Fixpoint run_loop {T} (call : forall A, M St A -> M T A)
    (on_frame : option (nat -> M T unit)) (signals : nat -> option (M T unit))
    (i fuel : nat) : M T (option unit) :=
  match fuel with
  | O => mret None
  | S fuel' =>
      match signals i with Some handler => handler | None => mret tt end ;;
      s ← call _ self ;
      if _running s then
        frame ← call _ read_frame ;
        match frame, on_frame with
        | Some fr, Some f => f fr
        | _, _ => mret tt
        end ;;
        run_loop call on_frame signals (S i) fuel'
      else mret (Some tt)
  end.

End WithCv2.

End Capture.

(** ** stream.py *)

(** The bytes of an ASCII literal ([b"..."]). *)
Definition bytes_of (s : string) : list Z :=
  map (fun c => Z.of_N (N_of_ascii c)) (list_ascii_of_string s).

Definition CRLF : string := String "013"%char (String "010"%char EmptyString).

Module Stream.

(** The module's state: the capture objects that exist (main.py makes
    one and shares it with this module by reference), the global
    [_frame_source] and the world. *)
Record Globals := mk_Globals {
  objects : list Capture.GlassCapture;
  _frame_source : option nat;
  world : World
}.

Definition St : Type := Globals.

Definition set_objects (f : list Capture.GlassCapture -> list Capture.GlassCapture)
    (g : Globals) : Globals :=
  mk_Globals (f (objects g)) (_frame_source g) (world g).
Definition set_world (w : World) (g : Globals) : Globals :=
  mk_Globals (objects g) (_frame_source g) w.

(** [GlassCapture(cfg)]: a new object, known by its reference. *)
Definition new_GlassCapture (cfg : CaptureConfig) : M St nat :=
  g ← get ;
  modify (set_objects (fun os => os ++ [Capture.__init__ cfg])) ;;
  mret (length (objects g)).

(** A method call on the object behind reference [r]: the object is
    updated in place. *)
Definition call (r : nat) {A} (m : M Capture.St A) : M St A := fun g =>
  match objects g !! r with
  | Some o =>
      let '(res, (o', w')) := m (o, world g) in
      (res, mk_Globals (<[r := o']> (objects g)) (_frame_source g) w')
  | None => (Raise (RuntimeError "invalid object reference"), g)
  end.

Definition set_frame_source (source : nat) : M St unit :=
  modify (fun g => mk_Globals (objects g) (Some source) (world g)).

(** What a route returns: a dict sent as JSON, or a streaming body. *)
Inductive Response :=
| JSONResponse (body : list (string * string))
| StreamingResponse (chunks : list (list Z)) (media_type : string).

(** One pass through the body of [while True]. *)
Inductive Step :=
| Continue
| Yield (part : list Z).

Section WithCv2.
Variable cv2 : Cv2.

Definition deref (r : nat) : M St ndarray :=
  g ← get ;
  match heap (world g) !! r with
  | Some a => mret a
  | None => raise (RuntimeError "invalid array reference")
  end.

Definition _generate_mjpeg_iteration (quality : Z) : M St Step :=
  g ← get ;
  match _frame_source g with
  | None => mret Continue
  | Some src =>
      frame ← call src Capture.latest_frame ;
      match frame with
      | None => mret Continue
      | Some fr =>
          a ← deref fr ;
          match imencode cv2 ".jpg" a quality with
          | None => mret Continue
          | Some jpeg =>
              mret (Yield (bytes_of ("--frame" +:+ CRLF) ++
                           bytes_of ("Content-Type: image/jpeg" +:+ CRLF +:+ CRLF) ++
                           jpeg ++ bytes_of CRLF))
          end
      end
  end.

(** [next()] on the generator [_generate_mjpeg(quality)]: the part it
    yields, or [None] when [fuel] passes through the loop yielded
    nothing. *)
Fixpoint _generate_mjpeg (quality : Z) (fuel : nat) : M St (option (list Z)) :=
  match fuel with
  | O => mret None
  | S fuel' =>
      st ← _generate_mjpeg_iteration quality ;
      match st with
      | Continue => _generate_mjpeg quality fuel'
      | Yield part => mret (Some part)
      end
  end.

Definition snapshot : M St Response :=
  g ← get ;
  match _frame_source g with
  | None => mret (JSONResponse [("error", "No capture source available")])
  | Some src =>
      frame ← call src Capture.latest_frame ;
      match frame with
      | None => mret (JSONResponse [("error", "No frame available")])
      | Some fr =>
          a ← deref fr ;
          match imencode cv2 ".jpg" a 90 with
          | None => mret (JSONResponse [("error", "Failed to encode frame")])
          | Some jpeg => mret (StreamingResponse [jpeg] "image/jpeg")
          end
      end
  end.

(** The value of ["capturing"] in the dict [status()] returns. *)
Definition status : M St bool :=
  g ← get ;
  match _frame_source g with
  | None => mret false
  | Some src => o ← call src Capture.self ; mret (Capture.is_running o)
  end.

End WithCv2.

End Stream.

(** ** main.py *)

(** What [parse_args()] returns: [--mode] is one of its two choices,
    [--output-dir] a [str]. *)
Module Namespace.

Inductive Mode := adb | rtsp.

Record t := mk {
  mode : Mode;
  rtsp_url : string;
  adb_serial : option string;
  width : Z;
  height : Z;
  fps : Z;
  output_dir : string;
  stream_port : Z;
  no_save : bool;
  no_stream : bool
}.

Definition mode_str (m : Mode) : string :=
  match m with
  | adb => "adb"
  | rtsp => "rtsp"
  end.

End Namespace.

Module Main.

(** The process: the interpreter state above, and the variable
    [storage] of [main], which its closures share. *)
Record Process := mk_Process {
  py : Stream.Globals;
  storage_var : option Storage.VideoStorage
}.

Definition boot (w : World) : Process := mk_Process (Stream.mk_Globals [] None w) None.

Definition in_stream {A} (m : M Stream.St A) : M Process A :=
  zoom py (fun g p => mk_Process g (storage_var p)) m.

Definition in_world (f : World -> World) : M Process unit :=
  modify (fun p => mk_Process (Stream.set_world (f (Stream.world (py p))) (py p)) (storage_var p)).

Definition set_storage_var (v : option Storage.VideoStorage) : M Process unit :=
  modify (fun p => mk_Process (py p) v).

(** A method call on the object in [storage]. *)
Definition with_storage {A} (st : Storage.VideoStorage) (m : M Storage.St A) : M Process A :=
  fun p =>
    let '(r, (st', w')) := m (st, Stream.world (py p)) in
    (r, mk_Process (Stream.set_world w' (py p)) (Some st')).

(** The places of [main] at which a pending SIGINT or SIGTERM is
    handled here: between its statements once the handlers are
    installed, and at the head of each pass through the capture loop. *)
Inductive Checkpoint :=
| BeforeStart
| BeforeOpen
| BeforeStreaming
| InLoop (i : nat).

Global Instance Checkpoint_eq_dec : EqDecision Checkpoint.
Proof. solve_decision. Defined.

(** The pass through the capture loop before which the signal arrives,
    if it arrives in the loop. *)
Definition in_loop (sigterm : option Checkpoint) : option nat :=
  match sigterm with
  | Some (InLoop i) => Some i
  | _ => None
  end.

(** The [AppConfig] that [main] builds from the arguments. *)
Definition config_of (args : Namespace.t) : AppConfig :=
  mk_AppConfig
    (mk_CaptureConfig (Namespace.mode_str (Namespace.mode args)) (Namespace.rtsp_url args)
                      (Namespace.adb_serial args) (Namespace.width args)
                      (Namespace.height args) (Namespace.fps args))
    (mk_StorageConfig (PyStr (Namespace.output_dir args))
                      (filename_prefix default_StorageConfig)
                      (max_file_size_mb default_StorageConfig)
                      (codec default_StorageConfig) (container default_StorageConfig))
    (mk_StreamConfig (host default_StreamConfig) (Namespace.stream_port args)
                     (jpeg_quality default_StreamConfig))
    (negb (Namespace.no_save args))
    (negb (Namespace.no_stream args)).

Section WithCv2.
Variable cv2 : Cv2.

Definition shutdown (capture : nat) : M Process unit :=
  in_world (logger "INFO" "Shutting down...") ;;
  in_stream (Stream.call capture Capture.stop) ;;
  p ← get ;
  match storage_var p with
  | Some st => with_storage st Storage.close
  | None => mret tt
  end ;;
  raise (SystemExit 0).

Definition on_frame (frame : nat) : M Process unit :=
  p ← get ;
  match storage_var p with
  | Some st =>
      a ← in_stream (Stream.deref frame) ;
      with_storage st (Storage.write_frame cv2 a)
  | None => mret tt
  end.

(** The handler runs at checkpoint [c] when the signal arrives there. *)
Definition deliver (sigterm : option Checkpoint) (capture : nat) (c : Checkpoint)
    : M Process unit :=
  if decide (sigterm = Some c) then shutdown capture else mret tt.

(** [main()] on the arguments [parse_args()] returned.  [sigterm] is
    the checkpoint at which SIGINT or SIGTERM arrives, if one does. *)
Definition main (args : Namespace.t) (sigterm : option Checkpoint) (fuel : nat)
    : M Process (option unit) :=
  let config := config_of args in
  let capture_config := capture config in
  capture ← in_stream (Stream.new_GlassCapture capture_config) ;
  set_storage_var (if save_locally config
                   then Some (Storage.__init__ (storage config)) else None) ;;
  let signals (i : nat) :=
    if decide (in_loop sigterm = Some i) then Some (shutdown capture) else None in
  deliver sigterm capture BeforeStart ;;
  try_except (in_stream (Stream.call capture (Capture.start cv2)))
    (fun e => match e with
              | ConnectionError _ =>
                  Some (in_world (logger "ERROR" "Failed to connect: %s") ;;
                        raise (SystemExit 1))
              | _ => None
              end) ;;
  deliver sigterm capture BeforeOpen ;;
  p ← get ;
  match storage_var p with
  | Some st =>
      with_storage st (Storage.open cv2 (width capture_config) (height capture_config)
                                    (fps capture_config)) ;;
      mret tt
  | None => mret tt
  end ;;
  deliver sigterm capture BeforeStreaming ;;
  (if enable_streaming config then
     in_stream (Stream.set_frame_source capture) ;;
     in_world (emit (EvServe (host (stream config)) (port (stream config)))) ;;
     in_world (logger "INFO" "Streaming at http://0.0.0.0:%d/stream")
   else mret tt) ;;
  in_world (logger "INFO" "Recording started. Press Ctrl+C to stop.") ;;
  Capture.run_loop (fun A => in_stream ∘ Stream.call capture)
                   (Some on_frame) signals 0%nat fuel.

(** The exit status of the process: 0 when [main] returns, the code of
    a [SystemExit], 1 for any other exception that reaches the top;
    [None] while the loop is still running. *)
Definition exit_status {A} (r : outcome (option A)) : option Z :=
  match r with
  | Return (Some _) => Some 0
  | Return None => None
  | Raise (SystemExit code) => Some code
  | Raise _ => Some 1
  end.

End WithCv2.

End Main.

(** * Vocabulary of the statements *)

Ltac run := repeat (unfold mbind, mret, M_bind, M_ret, raise, get, modify,
                    Storage.self, Storage.world, Storage.setattr, Storage.effect,
                    Capture.self, Capture.world, Capture.setattr, Capture.effect; simpl).

#[local] Arguments pretty : simpl never.
#[local] Arguments String.append : simpl never.
#[local] Arguments String.concat : simpl never.
#[local] Arguments String.eqb : simpl never.
#[local] Arguments str_in : simpl never.
#[local] Arguments split_newline_last : simpl never.
#[local] Arguments Path_of_str : simpl never.
#[local] Arguments Path_str : simpl never.
#[local] Arguments Path_truediv : simpl never.
#[local] Arguments Path_ancestors : simpl never.
#[local] Arguments Storage.mkdir_error : simpl never.

#[local] Arguments Stream.call : simpl never.
#[local] Arguments Capture.start : simpl never.
#[local] Arguments Capture.read_frame : simpl never.
#[local] Arguments Capture.latest_frame : simpl never.
#[local] Arguments Capture.stop : simpl never.
#[local] Arguments Storage.open : simpl never.
#[local] Arguments Storage.close : simpl never.
#[local] Arguments Storage.write_frame : simpl never.

Ltac case_if :=
  match goal with |- context [if ?c then _ else _] => destruct c eqn:? end.

(** The file a session opened in [dir] at the time of [w] is named. *)
Definition session_path (dir : Path) (cfg : StorageConfig) (w : World) : Path :=
  Path_truediv dir (filename_prefix cfg +:+ "_" +:+ now w +:+ container cfg).

(** [open] gets as far as creating its writer, for a file in [dir]:
    the output directory is the [Path] [dir], no regular file stands
    where [mkdir] needs a directory, and the codec has the four
    characters of a FourCC. *)
Definition opens_in (cfg : StorageConfig) (w : World) (dir : Path) : Prop :=
  output_dir cfg = PosixPath dir /\
  Storage.mkdir_error dir (fs w) = None /\
  String.length (codec cfg) = 4%nat.

(** The frame has the size the writer was created for. *)
Definition fits (wr : Storage.VideoWriter) (frame : ndarray) : Prop :=
  shape_w frame = Storage.vw_width wr /\ shape_h frame = Storage.vw_height wr.

Definition written (cv2 : Cv2) (wr : Storage.VideoWriter) (frame : ndarray)
    (σ : Storage.St) : Storage.St :=
  snd ((Storage.VideoWriter_write cv2 wr frame ;;
        Storage.setattr (fun s => Storage.set_frame_count (Storage._frame_count s + 1) s)) σ).

(** A recorder is closed when it holds no writer. *)
Definition Closed (s : Storage.VideoStorage) : Prop := Storage._writer s = None.

(** The capture states in which no [read_frame] has returned a frame
    yet: the new object, and what the methods and the passing of time
    make of such a state. *)
Inductive no_frame_yet (cv2 : Cv2) : Capture.St -> Prop :=
| nfy_init cfg w : no_frame_yet cv2 (Capture.__init__ cfg, w)
| nfy_start σ : no_frame_yet cv2 σ -> no_frame_yet cv2 (snd (Capture.start cv2 σ))
| nfy_read σ :
    no_frame_yet cv2 σ -> fst (Capture.read_frame σ) = Return None ->
    no_frame_yet cv2 (snd (Capture.read_frame σ))
| nfy_latest σ : no_frame_yet cv2 σ -> no_frame_yet cv2 (snd (Capture.latest_frame σ))
| nfy_stop σ : no_frame_yet cv2 σ -> no_frame_yet cv2 (snd (Capture.stop σ))
| nfy_world c w w' : no_frame_yet cv2 (c, w) -> no_frame_yet cv2 (c, w').

(** The capture states in which some [read_frame] has returned a frame.
    The world may move on meanwhile, but arrays are not taken off the
    heap. *)
Inductive frame_captured (cv2 : Cv2) : Capture.St -> Prop :=
| fc_read σ r :
    fst (Capture.read_frame σ) = Return (Some r) ->
    frame_captured cv2 (snd (Capture.read_frame σ))
| fc_start σ : frame_captured cv2 σ -> frame_captured cv2 (snd (Capture.start cv2 σ))
| fc_read_again σ : frame_captured cv2 σ -> frame_captured cv2 (snd (Capture.read_frame σ))
| fc_latest σ : frame_captured cv2 σ -> frame_captured cv2 (snd (Capture.latest_frame σ))
| fc_stop σ : frame_captured cv2 σ -> frame_captured cv2 (snd (Capture.stop σ))
| fc_world c w w' :
    frame_captured cv2 (c, w) -> (length (heap w) <= length (heap w'))%nat ->
    frame_captured cv2 (c, w').

(** The slot refers to an array on the heap. *)
Definition slot_valid (σ : Capture.St) : Prop :=
  exists r, Capture._latest_frame (fst σ) = Some r /\ (r < length (heap (snd σ)))%nat.

(** The live view has no frame to show: no source is attached, or the
    attached source has captured nothing yet. *)
Definition no_frame_available (g : Stream.Globals) : Prop :=
  Stream._frame_source g = None \/
  exists src o,
    Stream._frame_source g = Some src /\ Stream.objects g !! src = Some o /\
    Capture._latest_frame o = None.

(** A pass through the generator's loop pauses when it yields a part
    or when it sleeps, which would show as an [EvSleep] among the
    events it adds to the trace. *)
Definition pauses (before : Stream.Globals) (res : outcome Stream.Step * Stream.Globals) : Prop :=
  (exists part, fst res = Return (Stream.Yield part)) \/
  (exists seconds,
     In (EvSleep seconds)
        (drop (length (trace (Stream.world before))) (trace (Stream.world (snd res))))).

(** The signal handlers [main] installs, and its capture loop. *)
Definition signals_at (sigterm : option nat) (capture : nat) (i : nat)
    : option (M Main.Process unit) :=
  if decide (sigterm = Some i) then Some (Main.shutdown capture) else None.

Definition capture_loop (cv2 : Cv2) (capture : nat) (sigterm : option nat) (i fuel : nat)
    : M Main.Process (option unit) :=
  Capture.run_loop (fun A => Main.in_stream ∘ Stream.call capture)
                   (Some (Main.on_frame cv2)) (signals_at sigterm capture) i fuel.

(** The process when [main] has made its objects and installed its
    handlers. *)
Definition launched (args : Namespace.t) (w : World) : Main.Process :=
  Main.mk_Process
    (Stream.mk_Globals [Capture.__init__ (capture (Main.config_of args))] None w)
    (if save_locally (Main.config_of args)
     then Some (Storage.__init__ (storage (Main.config_of args))) else None).

(** [main] starting the capture: [ConnectionError] ends the process
    with status 1. *)
Definition connect (cv2 : Cv2) (capture : nat) : M Main.Process unit :=
  try_except (Main.in_stream (Stream.call capture (Capture.start cv2)))
    (fun e => match e with
              | ConnectionError _ =>
                  Some (Main.in_world (logger "ERROR" "Failed to connect: %s") ;;
                        raise (SystemExit 1))
              | _ => None
              end).

(** [main] between the start of the capture and the loop: the recorder
    is opened when there is one, then the live view is announced. *)
Definition opening (cv2 : Cv2) (config : AppConfig) : M Main.Process unit :=
  p ← get ;
  match Main.storage_var p with
  | Some st =>
      Main.with_storage st (Storage.open cv2 (width (capture config)) (height (capture config))
                                         (fps (capture config))) ;;
      mret tt
  | None => mret tt
  end.

Definition announce (config : AppConfig) (capture : nat) (p : Main.Process) : Main.Process :=
  snd (((if enable_streaming config then
           Main.in_stream (Stream.set_frame_source capture) ;;
           Main.in_world (emit (EvServe (host (stream config)) (port (stream config)))) ;;
           Main.in_world (logger "INFO" "Streaming at http://0.0.0.0:%d/stream")
         else mret tt) ;;
        Main.in_world (logger "INFO" "Recording started. Press Ctrl+C to stop.")) p).

(** ** Sample inputs *)

(** An OpenCV whose writers and captures always open, whose writer
    starts a file with a header of 44 bytes and adds one mebibyte per
    frame, and whose JPEG encoder returns the pixels. *)
Definition cv_ok : Cv2 :=
  mk_Cv2 (fun _ _ _ _ _ => true) (fun _ _ _ _ _ => 44) (fun _ => 1048576) (fun _ => true)
         (fun _ a _ => Some (pixels a)).

(** The same, but no writer opens and no frame encodes. *)
Definition cv_failing : Cv2 :=
  mk_Cv2 (fun _ _ _ _ _ => false) (fun _ _ _ _ _ => 44) (fun _ => 1048576) (fun _ => true)
         (fun _ _ _ => None).

Definition frame_small : ndarray := mk_ndarray 480 640 [7; 7; 7].
Definition frame_hd : ndarray := mk_ndarray 720 1280 [1; 2; 3].

Definition world0 : World :=
  mk_World "20240101_120000" ∅ ∅ [] [Some frame_hd; None]
           (Some ("List of devices attached" +:+ String "010"%char "emulator-5554	device"))
           [] [].

Definition recordings : Path := Path_of_str "recordings".

(** A recorder that rotates at one megabyte. *)
Definition config_1mb : StorageConfig :=
  mk_StorageConfig (PosixPath recordings) "routeball" 1 "mp4v" ".mp4".
Definition config_unlimited : StorageConfig :=
  mk_StorageConfig (PosixPath recordings) "routeball" 0 "mp4v" ".mp4".

(** The recorders after [open(1280, 720, 30)] in [world0]. *)
Definition recorder_1mb : Storage.St :=
  snd (Storage.open cv_ok 1280 720 30 (Storage.__init__ config_1mb, world0)).
Definition recorder_unlimited : Storage.St :=
  snd (Storage.open cv_ok 1280 720 30 (Storage.__init__ config_unlimited, world0)).

Definition writer_1mb : Storage.VideoWriter :=
  Storage.mk_VideoWriter "recordings/routeball_20240101_120000.mp4" "mp4v" 30 1280 720 true.

(** A capture object that is running on an opened source. *)
Definition capture_running : Capture.GlassCapture :=
  Capture.mk_GlassCapture default_CaptureConfig
    (Some (Capture.mk_VideoCapture "rtsp://192.168.1.100:8554/camera" true)) true None.

(** The interpreter with that one capture object and no source attached. *)
Definition globals_detached : Stream.Globals :=
  Stream.mk_Globals [capture_running] None world0.

(** No device is listed after the header line of [adb devices]. *)
Definition world_no_device : World :=
  mk_World "20240101_120000" ∅ ∅ [] []
           (Some ("List of devices attached" +:+ String "010"%char (String "010"%char EmptyString)))
           [] [].

(** The arguments of [python main.py], and of [python main.py --no-save]. *)
Definition args_default : Namespace.t :=
  Namespace.mk Namespace.adb "rtsp://192.168.1.100:8554/camera" None 1280 720 30
               "recordings" 8000 false false.
Definition args_no_save : Namespace.t :=
  Namespace.mk Namespace.adb "rtsp://192.168.1.100:8554/camera" None 1280 720 30
               "recordings" 8000 true false.


(** ** Further vocabulary *)

(** What the recorder's methods keep true of its fields: the frame
    count is not negative, and a writer that is set was created for the
    current path with the configured codec, which then has four
    characters, in an output directory that is a [Path]. *)
Definition recorder_inv (s : Storage.VideoStorage) : Prop :=
  0 <= Storage._frame_count s /\
  forall wr, Storage._writer s = Some wr ->
    (exists path, Storage._current_path s = Some path /\ Storage.vw_path wr = Path_str path) /\
    Storage.vw_fourcc wr = codec (Storage.config s) /\
    String.length (codec (Storage.config s)) = 4%nat /\
    exists dir, output_dir (Storage.config s) = PosixPath dir.

(** The recorder states a program can reach from [VideoStorage(cfg)]
    with the three methods, whatever they return, while the world
    moves on between the calls. *)
Inductive recorder_reachable (cv2 : Cv2) (cfg : StorageConfig) : Storage.St -> Prop :=
| rr_init w : recorder_reachable cv2 cfg (Storage.__init__ cfg, w)
| rr_open σ width height fps :
    recorder_reachable cv2 cfg σ ->
    recorder_reachable cv2 cfg (snd (Storage.open cv2 width height fps σ))
| rr_write σ frame :
    recorder_reachable cv2 cfg σ ->
    recorder_reachable cv2 cfg (snd (Storage.write_frame cv2 frame σ))
| rr_close σ :
    recorder_reachable cv2 cfg σ ->
    recorder_reachable cv2 cfg (snd (Storage.close σ))
| rr_world s w w' :
    recorder_reachable cv2 cfg (s, w) -> recorder_reachable cv2 cfg (s, w').

(** [for frame in batch: storage.write_frame(frame)] *)
Fixpoint write_frames (cv2 : Cv2) (batch : list ndarray) : M Storage.St unit :=
  match batch with
  | [] => mret tt
  | frame :: rest => Storage.write_frame cv2 frame ;; write_frames cv2 rest
  end.

(** The bytes a writer adds for a batch of frames. *)
Definition batch_bytes (cv2 : Cv2) (batch : list ndarray) : Z :=
  foldr (fun frame acc => VideoWriter_bytes cv2 frame + acc) 0 batch.

(** [n] calls of [read_frame] in a row, with what each returned. *)
Fixpoint read_frames (n : nat) : M Capture.St (list (option nat)) :=
  match n with
  | O => mret []
  | S n' =>
      r ← Capture.read_frame ;
      rs ← read_frames n' ;
      mret (r :: rs)
  end.

(** The last image a camera feed delivers, if it delivers any. *)
Fixpoint last_image (feed : list (option ndarray)) : option ndarray :=
  match feed with
  | [] => None
  | x :: rest =>
      match last_image rest with
      | Some img => Some img
      | None => x
      end
  end.

(** The images of a feed, in order. *)
Definition images (feed : list (option ndarray)) : list ndarray := omap id feed.

(** The command line [_start_adb] builds for a configuration. *)
Definition adb_serial_args (cfg : CaptureConfig) : list string :=
  match adb_serial cfg with
  | Some serial => if String.eqb serial EmptyString then [] else ["-s"; serial]
  | None => []
  end.

Definition adb_pipeline (cfg : CaptureConfig) : string :=
  let size := pretty (width cfg) +:+ "x" +:+ pretty (height cfg) in
  String.concat " " (["adb"] ++ adb_serial_args cfg ++
                     ["exec-out"; "screenrecord"; "--output-format=h264"; "--size=" +:+ size; "-"])
  +:+ " | " +:+ "ffmpeg -i pipe:0 -f rawvideo -pix_fmt bgr24 " +:+ "-s " +:+ size +:+ " pipe:1".

(** The exceptions [start] can end with. *)
Definition start_error (e : exn) : Prop :=
  (exists msg, e = ConnectionError msg) \/ (exists msg, e = ValueError msg) \/
  e = FileNotFoundError.

(** One part of the multipart stream around an encoded image. *)
Definition mjpeg_part (jpeg : list Z) : list Z :=
  bytes_of ("--frame" +:+ CRLF) ++
  bytes_of ("Content-Type: image/jpeg" +:+ CRLF +:+ CRLF) ++
  jpeg ++ bytes_of CRLF.

(** Two worlds with the same files and directories. *)
Definition same_disk (w w' : World) : Prop := fs w' = fs w /\ dirs w' = dirs w.

(** A step of [main] that, run without a recorder, makes none and
    leaves the files and directories alone. *)
Definition keeps_disk {A} (m : M Main.Process A) : Prop :=
  forall p, Main.storage_var p = None ->
    Main.storage_var (snd (m p)) = None /\
    same_disk (Stream.world (Main.py p)) (Stream.world (Main.py (snd (m p)))).

(** ** Further sample inputs *)

(** The interpreter after [set_frame_source] and one read that
    returned a frame. *)
Definition globals_viewing : Stream.Globals :=
  snd ((Stream.set_frame_source 0 ;; Stream.call 0 Capture.read_frame) globals_detached).

(** A process in its capture loop, with and without a recorder. *)
Definition process_recording : Main.Process :=
  Main.mk_Process (Stream.mk_Globals [capture_running] None (snd recorder_unlimited))
                  (Some (fst recorder_unlimited)).

Definition process_streaming : Main.Process :=
  Main.mk_Process globals_detached None.

Definition writer_path : string := "recordings/routeball_20240101_120000.mp4".

(** A second image of the size of [frame_hd]. *)
Definition frame_hd2 : ndarray := mk_ndarray 720 1280 [4; 5; 6].

(** A recorder that writes into the working directory. *)
Definition config_cwd : StorageConfig :=
  mk_StorageConfig (PosixPath (Path_of_str ".")) "routeball" 1 "mp4v" ".mp4".


Definition capture_config_usb : CaptureConfig :=
  mk_CaptureConfig "usb" "rtsp://192.168.1.100:8554/camera" None 1280 720 30.

Definition camera_rtsp : Capture.VideoCapture :=
  Capture.mk_VideoCapture "rtsp://192.168.1.100:8554/camera" true.


(** * Properties *)

Lemma bind_eq {S A B} (m : M S A) (f : A -> M S B) (s : S) :
  (m ≫= f) s =
  match m s with
  | (Return a, s') => f a s'
  | (Raise e, s') => (Raise e, s')
  end.
Proof. reflexivity. Qed.

Lemma bind_ext {S A B} (m : M S A) (f g : A -> M S B) (s : S) :
  (forall a s', f a s' = g a s') -> (m ≫= f) s = (m ≫= g) s.
Proof. intros H. rewrite !bind_eq. destruct (m s) as [[a|e] s']; auto. Qed.

Lemma bind_assoc {S A B C} (m : M S A) (f : A -> M S B) (g : B -> M S C) (s : S) :
  ((m ≫= f) ≫= g) s = (m ≫= (fun a => f a ≫= g)) s.
Proof. rewrite !bind_eq. destruct (m s) as [[a|e] s']; reflexivity. Qed.

Section StorageFacts.
Variable cv2 : Cv2.
Import Storage.

Lemma written_eq wr frame s w :
  written cv2 wr frame (s, w) =
  (set_frame_count (_frame_count s + 1) s,
   if accepts wr frame
   then set_fs (alter (fun f => mk_File (st_size f + VideoWriter_bytes cv2 frame)
                                        (frames f ++ [frame])) (vw_path wr))
               (emit (EvWrite (vw_path wr) frame) w)
   else emit (EvWrite (vw_path wr) frame) w).
Proof.
  unfold written, VideoWriter_write. run. destruct (accepts wr frame); reflexivity.
Qed.

Lemma write_frame_unfold s w wr frame :
  _writer s = Some wr ->
  write_frame cv2 frame (s, w) =
  (rotate ← _should_rotate ;
   if (rotate : bool) then
     close ;; s' ← self ; open cv2 (shape_w frame) (shape_h frame) (_fps s') ;; mret tt
   else mret tt) (written cv2 wr frame (s, w)).
Proof.
  intros Hw. unfold write_frame, written. run. rewrite Hw.
  unfold VideoWriter_write. run. destruct (accepts wr frame); reflexivity.
Qed.

Lemma accepts_fits wr frame :
  vw_opened wr = true -> fits wr frame -> accepts wr frame = true.
Proof.
  intros Hop [Hw Hh]. unfold accepts. rewrite Hop, Hw, Hh, !Z.eqb_refl. reflexivity.
Qed.

(** Writing to a file does not change which paths hold a file. *)
Lemma is_file_alter g k files p : is_file (alter g k files) p = is_file files p.
Proof.
  unfold is_file. destruct (decide (k = Path_str p)) as [->|Hne].
  - rewrite lookup_alter_eq. destruct (files !! Path_str p); reflexivity.
  - rewrite lookup_alter_ne by exact Hne. reflexivity.
Qed.

Lemma mkdir_error_alter g k files dir :
  mkdir_error dir (alter g k files) = mkdir_error dir files.
Proof.
  unfold mkdir_error. rewrite is_file_alter.
  replace (existsb (is_file (alter g k files)) (Path_ancestors dir))
    with (existsb (is_file files) (Path_ancestors dir)); [reflexivity|].
  induction (Path_ancestors dir) as [|a l IH]; [reflexivity|].
  simpl. rewrite is_file_alter, IH. reflexivity.
Qed.

(** What [written] leaves as it was. *)
Lemma written_world wr frame s w dir :
  now (snd (written cv2 wr frame (s, w))) = now w /\
  mkdir_error dir (fs (snd (written cv2 wr frame (s, w)))) = mkdir_error dir (fs w) /\
  trace (snd (written cv2 wr frame (s, w))) = trace w ++ [EvWrite (vw_path wr) frame].
Proof.
  rewrite written_eq. destruct (accepts wr frame); simpl; repeat split.
  apply mkdir_error_alter.
Qed.

Lemma open_outcome width height fps s w :
  open cv2 width height fps (s, w) =
  match output_dir (config s) with
  | PyStr _ =>
      (Raise (AttributeError "'str' object has no attribute 'mkdir'"), (set_fps fps s, w))
  | PosixPath dir =>
      let w0 := emit (EvMkdir (Path_str dir)) w in
      match mkdir_error dir (fs w) with
      | Some e => (Raise e, (set_fps fps s, w0))
      | None =>
          let path := session_path dir (config s) w in
          let w1 := set_dirs (fun d => list_to_set (map Path_str (Path_ancestors dir ++ [dir])) ∪ d)
                             w0 in
          if Nat.eqb (String.length (codec (config s))) 4 then
            let ok := VideoWriter_isOpened cv2 (Path_str path) (codec (config s))
                                           fps width height in
            let wr := mk_VideoWriter (Path_str path) (codec (config s)) fps width height ok in
            let w2 := emit (EvVideoWriter (Path_str path) (codec (config s)) fps width height ok)
                           w1 in
            if ok then
              (Return path,
               (mk_VideoStorage (config s) (Some wr) (Some path) 0 fps,
                logger "INFO" "Recording to %s"
                  (set_fs <[Path_str path :=
                              mk_File (VideoWriter_header cv2 (Path_str path) (codec (config s))
                                                          fps width height) []]> w2)))
            else
              (Raise (IOError ("Failed to open video writer: " +:+ Path_str path)),
               (mk_VideoStorage (config s) (Some wr) (Some path) (_frame_count s) fps, w2))
          else
            (Raise (TypeError "VideoWriter_fourcc() takes 4 arguments"),
             (mk_VideoStorage (config s) (_writer s) (Some path) (_frame_count s) fps, w1))
      end
  end.
Proof.
  unfold open, Path_mkdir, VideoWriter_fourcc, new_VideoWriter. run.
  destruct (output_dir (config s)) as [dir|str]; run; [|reflexivity].
  destruct (mkdir_error dir (fs w)) as [e|]; run; [reflexivity|].
  fold (session_path dir (config s) w).
  destruct (Nat.eqb (String.length (codec (config s))) 4); run; [|reflexivity].
  case_if; run; reflexivity.
Qed.

(** [open] where it gets to create its writer. *)
Lemma open_outcome_in width height fps s w dir :
  opens_in (config s) w dir ->
  let path := session_path dir (config s) w in
  let ok := VideoWriter_isOpened cv2 (Path_str path) (codec (config s)) fps width height in
  let wr := mk_VideoWriter (Path_str path) (codec (config s)) fps width height ok in
  let w1 := emit (EvVideoWriter (Path_str path) (codec (config s)) fps width height ok)
                 (set_dirs (fun d => list_to_set (map Path_str (Path_ancestors dir ++ [dir])) ∪ d)
                           (emit (EvMkdir (Path_str dir)) w)) in
  open cv2 width height fps (s, w) =
  if ok then
    (Return path,
     (mk_VideoStorage (config s) (Some wr) (Some path) 0 fps,
      logger "INFO" "Recording to %s"
        (set_fs <[Path_str path :=
                    mk_File (VideoWriter_header cv2 (Path_str path) (codec (config s))
                                                fps width height) []]> w1)))
  else
    (Raise (IOError ("Failed to open video writer: " +:+ Path_str path)),
     (mk_VideoStorage (config s) (Some wr) (Some path) (_frame_count s) fps, w1)).
Proof.
  intros (Hdir & Hmk & Hcodec) path ok wr w1.
  rewrite open_outcome, Hdir, Hmk, Hcodec. reflexivity.
Qed.

Lemma close_outcome s w :
  close (s, w) =
  match _writer s with
  | Some wr => (Return tt, (set_writer None s,
                            logger "INFO" "Recording saved: %s (%d frames)"
                                   (emit (EvWriterRelease (vw_path wr)) w)))
  | None => (Return tt, (s, w))
  end.
Proof. unfold close, VideoWriter_release. run. destruct (_writer s); reflexivity. Qed.

(** [_should_rotate] only looks. *)
Lemma should_rotate_pure σ : exists b, _should_rotate σ = (Return b, σ).
Proof.
  destruct σ as [s w]. unfold _should_rotate. run.
  case_if; [eauto|]. destruct (_current_path s); run; [|eauto].
  destruct (fs w !! _); eauto.
Qed.

(** A frame the writer stores takes the file to the size limit. *)
Lemma should_rotate_reached st w wr img cur f :
  _current_path st = Some cur -> vw_path wr = Path_str cur ->
  accepts wr img = true ->
  fs w !! vw_path wr = Some f ->
  0 < max_file_size_mb (config st) ->
  max_file_size_mb (config st) * (1024 * 1024) <= st_size f + VideoWriter_bytes cv2 img ->
  fst (_should_rotate (written cv2 wr img (st, w))) = Return true.
Proof.
  intros Hp Hcur Hacc Hf Hmax Hsize. rewrite written_eq, Hacc.
  unfold _should_rotate. run.
  destruct (Z.leb_spec (max_file_size_mb (config st)) 0); [lia|].
  rewrite Hp. run. rewrite <- Hcur, lookup_alter_eq, Hf. simpl.
  destruct (Z.leb_spec (max_file_size_mb (config st) * (1024 * 1024))
                       (st_size f + VideoWriter_bytes cv2 img)); [reflexivity|lia].
Qed.

(** A call of [write_frame] that rotates, where [open] gets to create
    the new writer. *)
Lemma write_frame_rotates s w wr frame dir :
  _writer s = Some wr ->
  fst (_should_rotate (written cv2 wr frame (s, w))) = Return true ->
  opens_in (config s) w dir ->
  let path := session_path dir (config s) w in
  let ok := VideoWriter_isOpened cv2 (Path_str path) (codec (config s)) (_fps s)
                                 (shape_w frame) (shape_h frame) in
  let wr' := mk_VideoWriter (Path_str path) (codec (config s)) (_fps s)
                            (shape_w frame) (shape_h frame) ok in
  let w1 :=
    emit (EvVideoWriter (Path_str path) (codec (config s)) (_fps s)
                        (shape_w frame) (shape_h frame) ok)
      (set_dirs (fun d => list_to_set (map Path_str (Path_ancestors dir ++ [dir])) ∪ d)
         (emit (EvMkdir (Path_str dir))
            (logger "INFO" "Recording saved: %s (%d frames)"
               (emit (EvWriterRelease (vw_path wr)) (snd (written cv2 wr frame (s, w))))))) in
  write_frame cv2 frame (s, w) =
  if ok then
    (Return tt,
     (mk_VideoStorage (config s) (Some wr') (Some path) 0 (_fps s),
      logger "INFO" "Recording to %s"
        (set_fs <[Path_str path :=
                    mk_File (VideoWriter_header cv2 (Path_str path) (codec (config s)) (_fps s)
                                                (shape_w frame) (shape_h frame)) []]> w1)))
  else
    (Raise (IOError ("Failed to open video writer: " +:+ Path_str path)),
     (mk_VideoStorage (config s) (Some wr') (Some path) (_frame_count s + 1) (_fps s), w1)).
Proof.
  intros Hw Hrot Hin path ok wr' w1.
  rewrite (write_frame_unfold _ _ _ _ Hw).
  destruct (should_rotate_pure (written cv2 wr frame (s, w))) as [b Hb].
  rewrite Hb in Hrot. simpl in Hrot. injection Hrot as ->.
  rewrite bind_eq, Hb.
  destruct (written_world wr frame s w dir) as (Hnow & Hmk & _).
  assert (Hfst : fst (written cv2 wr frame (s, w)) = set_frame_count (_frame_count s + 1) s).
  { rewrite written_eq. reflexivity. }
  subst w1. destruct (written cv2 wr frame (s, w)) as [s1 w1].
  simpl in Hnow, Hmk, Hfst. subst s1.
  run. rewrite close_outcome. simpl. rewrite Hw. run.
  erewrite open_outcome_in.
  2:{ destruct Hin as (Hdir & Hmk0 & Hcodec). repeat split; simpl; [exact Hdir| |exact Hcodec].
      rewrite Hmk. exact Hmk0. }
  cbv zeta. simpl.
  assert (Hsp : session_path dir (config s)
                  (logger "INFO" "Recording saved: %s (%d frames)"
                          (emit (EvWriterRelease (vw_path wr)) w1))
                = session_path dir (config s) w).
  { unfold session_path. simpl. rewrite Hnow. reflexivity. }
  rewrite !Hsp. fold path. fold ok. destruct ok; reflexivity.
Qed.

(** C1. A frame that takes the file of an opened writer to the size
    limit is stored in that file, then the writer is released and a
    writer for the next session is created.  The next file is named
    after the output directory, the prefix and the second the clock
    shows: when this is the name of the current file, the new writer
    starts that file again and the frames of the session, the
    triggering frame among them, are no longer in it; when it is
    another name, the old file keeps them.  No third file changes.
    With a maximum of zero or less the recorder keeps its writer and
    path whatever the size. *)
Theorem write_frame_rotation_outcome s w wr frame :
  _writer s = Some wr ->
  (forall dir cur f0,
     vw_opened wr = true -> fits wr frame ->
     _current_path s = Some cur -> vw_path wr = Path_str cur ->
     fs w !! vw_path wr = Some f0 ->
     0 < max_file_size_mb (config s) ->
     max_file_size_mb (config s) * (1024 * 1024) <= st_size f0 + VideoWriter_bytes cv2 frame ->
     opens_in (config s) w dir ->
     let next := session_path dir (config s) w in
     VideoWriter_isOpened cv2 (Path_str next) (codec (config s)) (_fps s)
                          (shape_w frame) (shape_h frame) = true ->
     let f1 := mk_File (st_size f0 + VideoWriter_bytes cv2 frame) (frames f0 ++ [frame]) in
     fs (snd (written cv2 wr frame (s, w))) !! vw_path wr = Some f1 /\
     exists s' w',
       write_frame cv2 frame (s, w) = (Return tt, (s', w')) /\
       trace w' = trace w ++
         [EvWrite (vw_path wr) frame; EvWriterRelease (vw_path wr); EvMkdir (Path_str dir);
          EvVideoWriter (Path_str next) (codec (config s)) (_fps s)
                        (shape_w frame) (shape_h frame) true] /\
       current_file s' = Some next /\
       is_recording s' = true /\
       _frame_count s' = 0 /\
       fs w' !! Path_str next =
         Some (mk_File (VideoWriter_header cv2 (Path_str next) (codec (config s)) (_fps s)
                                           (shape_w frame) (shape_h frame)) []) /\
       (Path_str next <> vw_path wr ->
          exists f, fs w' !! vw_path wr = Some f /\ frames f = frames f0 ++ [frame]) /\
       (forall p, p <> Path_str next -> p <> vw_path wr -> fs w' !! p = fs w !! p))
  /\
  (max_file_size_mb (config s) <= 0 ->
     write_frame cv2 frame (s, w) = (Return tt, written cv2 wr frame (s, w)) /\
     _writer (fst (written cv2 wr frame (s, w))) = Some wr /\
     _current_path (fst (written cv2 wr frame (s, w))) = _current_path s /\
     trace (snd (written cv2 wr frame (s, w))) = trace w ++ [EvWrite (vw_path wr) frame]).
Proof.
  intros Hw. split.
  - intros dir cur f0 Hop Hfit Hcur Hpath Hf0 Hmax Hsize Hin next Hok f1.
    pose proof (accepts_fits wr frame Hop Hfit) as Hacc.
    pose proof (should_rotate_reached s w wr frame cur f0 Hcur Hpath Hacc Hf0 Hmax Hsize)
      as Hrot.
    rewrite (write_frame_rotates s w wr frame dir Hw Hrot Hin). cbv zeta. fold next.
    rewrite Hok. rewrite written_eq, Hacc. simpl.
    split; [rewrite lookup_alter_eq, Hf0; reflexivity|].
    eexists _, _. split; [reflexivity|]. simpl.
    split; [rewrite <- !app_assoc; reflexivity|].
    split; [reflexivity|]. split; [reflexivity|]. split; [reflexivity|].
    split; [apply lookup_insert_eq|]. split.
    + intros Hne. rewrite lookup_insert_ne by exact Hne.
      rewrite lookup_alter_eq, Hf0. eexists. split; reflexivity.
    + intros p Hp1 Hp2. rewrite lookup_insert_ne by congruence.
      apply lookup_alter_ne. congruence.
  - intros Hmax.
    destruct (written_world wr frame s w (mk_Path EmptyString [])) as (_ & _ & Htrace).
    rewrite (write_frame_unfold _ _ _ _ Hw).
    assert (Hfst : fst (written cv2 wr frame (s, w)) = set_frame_count (_frame_count s + 1) s).
    { rewrite written_eq. reflexivity. }
    destruct (written cv2 wr frame (s, w)) as [s1 w1]. simpl in Hfst, Htrace. subst s1.
    unfold _should_rotate. run.
    destruct (Z.leb_spec (max_file_size_mb (config s)) 0) as [_|Hlt]; [|lia].
    repeat split; auto.
Qed.

(** C6. A recorder that was never opened, or was closed, is in the
    closed state, and there [write_frame] raises [RuntimeError] and
    leaves the recorder and the world as they were. *)
Theorem write_frame_closed_fails cfg s w frame :
  Closed (__init__ cfg) /\
  Closed (fst (snd (close (s, w)))) /\
  (Closed s ->
     write_frame cv2 frame (s, w) =
       (Raise (RuntimeError "Storage not opened. Call open() first."), (s, w))).
Proof.
  unfold Closed. repeat split.
  - rewrite close_outcome. destruct (_writer s) eqn:E; simpl; auto.
  - intros Hc. unfold write_frame. run. rewrite Hc. reflexivity.
Qed.

(** The exceptions of [mkdir]. *)
Lemma mkdir_error_kind dir files e :
  mkdir_error dir files = Some e ->
  e = NotADirectoryError (Path_str dir) \/ e = FileExistsError (Path_str dir).
Proof.
  unfold mkdir_error. destruct (existsb _ _); [intros [= <-]; auto|].
  destruct (is_file _ _); [intros [= <-]; auto | discriminate].
Qed.

(** [open] raises the [IOError] of a writer that did not open only
    where it got to create the writer. *)
Lemma open_ioerror_opens_in width height fps s w msg σ' :
  open cv2 width height fps (s, w) = (Raise (IOError msg), σ') ->
  exists dir, opens_in (config s) w dir.
Proof.
  rewrite open_outcome. unfold opens_in.
  destruct (output_dir (config s)) as [dir|str]; [|discriminate].
  destruct (mkdir_error dir (fs w)) as [e|] eqn:Hmk.
  - intros [= -> _]. destruct (mkdir_error_kind _ _ _ Hmk); discriminate.
  - cbv zeta. destruct (Nat.eqb_spec (String.length (codec (config s))) 4); [|discriminate].
    intros _. exists dir. auto.
Qed.

(** No call of [open] raises [RuntimeError]. *)
Lemma open_no_runtime_error width height fps s w m :
  fst (open cv2 width height fps (s, w)) <> Raise (RuntimeError m).
Proof.
  rewrite open_outcome.
  destruct (output_dir (config s)) as [dir|str]; [|simpl; discriminate].
  destruct (mkdir_error dir (fs w)) as [e|] eqn:Hmk.
  - simpl. intros [= ->]. destruct (mkdir_error_kind _ _ _ Hmk); discriminate.
  - cbv zeta. repeat case_if; simpl; discriminate.
Qed.

(** C9. When [open] raises [IOError] the recorder keeps what [open]
    had assigned by then: the new path, the writer that did not open
    and the new frame rate, with the frame count of before; a later
    [write_frame] therefore does not raise the [RuntimeError] of a
    closed recorder. *)
Theorem open_failure_keeps_writer s w width height fps msg σ' :
  open cv2 width height fps (s, w) = (Raise (IOError msg), σ') ->
  exists dir,
    output_dir (config s) = PosixPath dir /\
    let path := session_path dir (config s) w in
    _current_path (fst σ') = Some path /\
    _writer (fst σ') =
      Some (mk_VideoWriter (Path_str path) (codec (config s)) fps width height false) /\
    _fps (fst σ') = fps /\
    _frame_count (fst σ') = _frame_count s /\
    is_recording (fst σ') = false /\
    forall frame w'' m,
      fst (write_frame cv2 frame (fst σ', w'')) <> Raise (RuntimeError m).
Proof.
  intros Hopen.
  destruct (open_ioerror_opens_in _ _ _ _ _ _ _ Hopen) as [dir Hin].
  exists dir. split; [apply Hin|]. intros path.
  rewrite (open_outcome_in _ _ _ _ _ _ Hin) in Hopen. cbv zeta in Hopen. fold path in Hopen.
  destruct (VideoWriter_isOpened cv2 (Path_str path) (codec (config s)) fps width height) eqn:Eok;
    [discriminate|].
  injection Hopen as _ <-. simpl. repeat split.
  intros frame w'' m.
  erewrite write_frame_unfold by reflexivity.
  destruct (should_rotate_pure
              (written cv2 (mk_VideoWriter (Path_str path) (codec (config s)) fps width height false)
                       frame
                       (mk_VideoStorage (config s)
                          (Some (mk_VideoWriter (Path_str path) (codec (config s)) fps width
                                                height false))
                          (Some path) (_frame_count s) fps, w''))) as [b Hb].
  rewrite bind_eq, Hb. destruct b; [|simpl; discriminate].
  rewrite written_eq. run. rewrite ?close_outcome. simpl.
  match goal with |- context [open cv2 ?a ?b ?c (?s1, ?w1)] =>
    pose proof (open_no_runtime_error a b c s1 w1 m) as Hno;
    destruct (open cv2 a b c (s1, w1)) as [[p|e] σ2]
  end; simpl in *; [discriminate | intros [= ->]; apply Hno; reflexivity].
Qed.


End StorageFacts.

Lemma write_frame_rotation_outcome_witness :
  (fs (snd (written cv_ok writer_1mb frame_hd recorder_1mb))
     !! "recordings/routeball_20240101_120000.mp4" = Some (mk_File 1048620 [frame_hd]) /\
   exists s' w',
     Storage.write_frame cv_ok frame_hd recorder_1mb = (Return tt, (s', w')) /\
     Storage.current_file s' = Storage.current_file (fst recorder_1mb) /\
     forall p f, fs w' !! p = Some f -> frames f = []) /\
  Storage.write_frame cv_ok frame_hd recorder_unlimited =
    (Return tt, written cv_ok writer_1mb frame_hd recorder_unlimited).
Proof.
  split.
  - destruct (write_frame_rotation_outcome cv_ok (fst recorder_1mb) (snd recorder_1mb)
                writer_1mb frame_hd eq_refl) as [Hrot _].
    destruct (Hrot recordings (session_path recordings config_1mb world0) (mk_File 44 []))
      as (Hstored & s' & w' & Hrun & _ & Hcur & _ & _ & Hnew & _ & Hrest).
    + reflexivity.
    + split; reflexivity.
    + reflexivity.
    + reflexivity.
    + vm_compute. reflexivity.
    + reflexivity.
    + vm_compute. discriminate.
    + repeat split; vm_compute; reflexivity.
    + reflexivity.
    + split; [exact Hstored|].
      exists s', w'. split; [exact Hrun|]. split; [exact Hcur|].
      intros p f Hp.
      destruct (decide (p = "recordings/routeball_20240101_120000.mp4")) as [->|Hne].
      * change (Path_str (session_path recordings (Storage.config (fst recorder_1mb))
                                       (snd recorder_1mb)))
          with "recordings/routeball_20240101_120000.mp4" in Hnew.
        rewrite Hnew in Hp. injection Hp as <-. reflexivity.
      * rewrite (Hrest p) in Hp by exact Hne.
        unfold recorder_1mb in Hp.
        rewrite (open_outcome_in cv_ok 1280 720 30 (Storage.__init__ config_1mb) world0
                                 recordings)
          in Hp by (repeat split; vm_compute; reflexivity).
        cbv zeta in Hp. simpl in Hp.
        change (Path_str (session_path recordings config_1mb world0))
          with "recordings/routeball_20240101_120000.mp4" in Hp.
        rewrite lookup_insert_ne, lookup_empty in Hp by congruence. discriminate Hp.
  - destruct (write_frame_rotation_outcome cv_ok (fst recorder_unlimited)
                (snd recorder_unlimited) writer_1mb frame_hd eq_refl) as [_ Hoff].
    apply Hoff. vm_compute. discriminate.
Defined.

Lemma write_frame_closed_fails_witness :
  Storage.write_frame cv_ok frame_hd (Storage.__init__ config_1mb, world0) =
  (Raise (RuntimeError "Storage not opened. Call open() first."),
   (Storage.__init__ config_1mb, world0)).
Proof.
  apply (write_frame_closed_fails cv_ok config_1mb (Storage.__init__ config_1mb) world0 frame_hd).
  reflexivity.
Defined.

Lemma open_failure_keeps_writer_witness :
  Storage.is_recording
    (fst (snd (Storage.open cv_failing 1280 720 30 (Storage.__init__ config_1mb, world0)))) = false /\
  fst (Storage.write_frame cv_failing frame_hd
         (fst (snd (Storage.open cv_failing 1280 720 30 (Storage.__init__ config_1mb, world0))),
          world0))
  <> Raise (RuntimeError "Storage not opened. Call open() first.").
Proof.
  destruct (open_failure_keeps_writer cv_failing (Storage.__init__ config_1mb) world0
              1280 720 30 _ _ eq_refl) as (dir & _ & _ & _ & _ & _ & Hrec & Hwrite).
  split; [exact Hrec | apply Hwrite].
Defined.



Section CaptureFacts.
Import Capture.

Lemma stop_outcome c w :
  stop (c, w) =
  (Return tt,
   (mk_GlassCapture (config c) None false (_latest_frame c),
    logger "INFO" "Capture stopped"
           match _cap c with
           | Some cap => emit (EvCaptureRelease (vc_source cap)) w
           | None => w
           end)).
Proof.
  unfold stop, VideoCapture_release. run. destruct c as [cfg [cap|] running slot]; reflexivity.
Qed.

Lemma latest_frame_outcome c w :
  latest_frame (c, w) =
  match _latest_frame c with
  | Some r =>
      match heap w !! r with
      | Some a => (Return (Some (length (heap w))), (c, set_heap (fun h => h ++ [a]) w))
      | None => (Raise (RuntimeError "invalid array reference"), (c, w))
      end
  | None => (Return None, (c, w))
  end.
Proof.
  unfold latest_frame, ndarray_copy, alloc. run.
  destruct (_latest_frame c) as [r|]; [|reflexivity]. run.
  destruct (heap w !! r); reflexivity.
Qed.

(** A read that returns a frame took it from the camera, put it in a
    new array and stored the reference in the slot. *)
Lemma read_frame_success c w r σ1 :
  read_frame (c, w) = (Return (Some r), σ1) ->
  exists cap img rest,
    _cap c = Some cap /\ _running c = true /\ camera w = Some img :: rest /\
    r = length (heap w) /\
    σ1 = (set_latest_frame (Some r) c,
          set_heap (fun h => h ++ [img])
                   (emit (EvRead (vc_source cap) true) (set_camera (fun _ => rest) w))).
Proof.
  unfold read_frame, VideoCapture_read, alloc. run.
  destruct (_cap c) as [cap|]; [|discriminate]. run.
  destruct (_running c); [|discriminate]. run.
  destruct (vc_opened cap); run; [|discriminate].
  destruct (camera w) as [|[img|] rest]; run; try discriminate.
  intros [= <- <-]. exists cap, img, rest. auto.
Qed.

(** A read that returns nothing leaves the slot alone. *)
Lemma read_frame_none_slot σ :
  fst (read_frame σ) = Return None ->
  _latest_frame (fst (snd (read_frame σ))) = _latest_frame (fst σ).
Proof.
  destruct σ as [c w]. unfold read_frame, VideoCapture_read, alloc. run.
  destruct (_cap c) as [cap|]; [|reflexivity]. run.
  destruct (_running c); [|reflexivity]. run.
  destruct (vc_opened cap); run; [|reflexivity].
  destruct (camera w) as [|[img|] rest]; run; try reflexivity. discriminate.
Qed.

Lemma start_slot cv2 σ :
  _latest_frame (fst (snd (start cv2 σ))) = _latest_frame (fst σ).
Proof.
  destruct σ as [c w].
  unfold start, _start_rtsp, _start_adb, new_VideoCapture, subprocess_run. run.
  destruct (String.eqb (mode (config c)) "rtsp"); run.
  - case_if; reflexivity.
  - destruct (String.eqb (mode (config c)) "adb"); run; [|reflexivity].
    destruct (adb_devices w) as [out|]; run; [|reflexivity].
    destruct (str_in "device" (split_newline_last out)); run; [|reflexivity].
    case_if; reflexivity.
Qed.

Lemma no_frame_yet_slot cv2 σ : no_frame_yet cv2 σ -> _latest_frame (fst σ) = None.
Proof.
  induction 1 as [cfg w|σ _ IH|σ _ IH Hr|σ _ IH|σ _ IH|c w w' _ IH]; simpl in *.
  - reflexivity.
  - rewrite start_slot. exact IH.
  - rewrite read_frame_none_slot by exact Hr. exact IH.
  - destruct σ as [c w]. rewrite latest_frame_outcome. simpl in IH. rewrite IH. exact IH.
  - destruct σ as [c w]. rewrite stop_outcome. exact IH.
  - exact IH.
Qed.

(** C2. A [read_frame] that returns a frame has stored that frame in
    the slot; [latest_frame] then returns a new array with the same
    contents, and assigning to that array leaves the one in the slot
    as it was.  Before any read has returned a frame, [latest_frame]
    returns [None]. *)
Theorem latest_frame_slot cv2 :
  (forall c w r σ1,
     read_frame (c, w) = (Return (Some r), σ1) ->
     _latest_frame (fst σ1) = Some r /\
     exists a r',
       heap (snd σ1) !! r = Some a /\
       latest_frame σ1 = (Return (Some r'), (fst σ1, set_heap (fun h => h ++ [a]) (snd σ1))) /\
       r' <> r /\
       heap (snd (snd (latest_frame σ1))) !! r' = Some a /\
       forall a',
         let w2 := ndarray_assign r' a' (snd (snd (latest_frame σ1))) in
         heap w2 !! r' = Some a' /\ heap w2 !! r = Some a /\
         exists r'',
           fst (latest_frame (fst σ1, w2)) = Return (Some r'') /\
           heap (snd (snd (latest_frame (fst σ1, w2)))) !! r'' = Some a)
  /\
  (forall σ, no_frame_yet cv2 σ -> latest_frame σ = (Return None, σ)).
Proof.
  split.
  - intros c w r σ1 Hread.
    destruct (read_frame_success _ _ _ _ Hread) as (cap & img & rest & _ & _ & _ & -> & ->).
    simpl. split; [reflexivity|].
    assert (Hr : (heap w ++ [img]) !! length (heap w) = Some img).
    { rewrite lookup_app_r by lia. replace (_ - _)%nat with 0%nat by lia. reflexivity. }
    exists img, (length (heap w ++ [img])).
    rewrite latest_frame_outcome. simpl. rewrite Hr. simpl.
    assert (Hlen : length (heap w ++ [img]) <> length (heap w)).
    { rewrite length_app. simpl. lia. }
    assert (Hr' : ((heap w ++ [img]) ++ [img]) !! length (heap w ++ [img]) = Some img).
    { rewrite lookup_app_r by lia. replace (_ - _)%nat with 0%nat by lia. reflexivity. }
    assert (Hkeep : forall a', <[length (heap w ++ [img]) := a']> ((heap w ++ [img]) ++ [img])
                               !! length (heap w) = Some img).
    { intros a'. rewrite list_lookup_insert_ne by exact Hlen.
      rewrite lookup_app_l by (rewrite length_app; simpl; lia). exact Hr. }
    split; [reflexivity|]. split; [reflexivity|]. split; [exact Hlen|]. split; [exact Hr'|].
    intros a'. simpl. split; [|split].
    + apply list_lookup_insert_eq. rewrite !length_app. simpl. lia.
    + apply Hkeep.
    + rewrite latest_frame_outcome. simpl. rewrite Hkeep. simpl.
      eexists. split; [reflexivity|].
      rewrite lookup_app_r by lia. replace (_ - _)%nat with 0%nat by lia. reflexivity.
  - intros [c w] Hn. rewrite latest_frame_outcome.
    apply no_frame_yet_slot in Hn. simpl in Hn. rewrite Hn. reflexivity.
Qed.

Lemma read_frame_outcome c w :
  read_frame (c, w) =
  match _cap c with
  | None => (Return None, (c, w))
  | Some cap =>
      if negb (_running c) then (Return None, (c, w))
      else if vc_opened cap then
        match camera w with
        | Some img :: rest =>
            (Return (Some (length (heap w))),
             (set_latest_frame (Some (length (heap w))) c,
              set_heap (fun h => h ++ [img])
                       (emit (EvRead (vc_source cap) true) (set_camera (fun _ => rest) w))))
        | None :: rest =>
            (Return None,
             (c, logger "WARNING" "Failed to read frame"
                        (emit (EvRead (vc_source cap) false) (set_camera (fun _ => rest) w))))
        | [] =>
            (Return None,
             (c, logger "WARNING" "Failed to read frame" (emit (EvRead (vc_source cap) false) w)))
        end
      else
        (Return None,
         (c, logger "WARNING" "Failed to read frame" (emit (EvRead (vc_source cap) false) w)))
  end.
Proof.
  unfold read_frame, VideoCapture_read, alloc. run.
  destruct (_cap c) as [cap|]; [|reflexivity]. run.
  destruct (_running c); [|reflexivity]. run.
  destruct (vc_opened cap); run; [|reflexivity].
  destruct (camera w) as [|[img|] rest]; reflexivity.
Qed.

Lemma start_heap cv2 σ : heap (snd (snd (start cv2 σ))) = heap (snd σ).
Proof.
  destruct σ as [c w].
  unfold start, _start_rtsp, _start_adb, new_VideoCapture, subprocess_run. run.
  destruct (String.eqb (mode (config c)) "rtsp"); run.
  - case_if; reflexivity.
  - destruct (String.eqb (mode (config c)) "adb"); run; [|reflexivity].
    destruct (adb_devices w) as [out|]; run; [|reflexivity].
    destruct (str_in "device" (split_newline_last out)); run; [|reflexivity].
    case_if; reflexivity.
Qed.

Lemma read_frame_slot_valid σ : slot_valid σ -> slot_valid (snd (read_frame σ)).
Proof.
  destruct σ as [c w]. intros (r & Hs & Hr). simpl in Hs, Hr.
  rewrite read_frame_outcome.
  destruct (_cap c) as [cap|]; [|by exists r].
  destruct (_running c); simpl; [|by exists r].
  destruct (vc_opened cap); [|by exists r].
  destruct (camera w) as [|[img|] rest]; try by exists r.
  exists (length (heap w)). simpl. rewrite length_app. simpl. split; [reflexivity|lia].
Qed.

(** Once a read has returned a frame, the slot refers to an array on
    the heap, whatever was called since. *)
Lemma frame_captured_slot cv2 σ : frame_captured cv2 σ -> slot_valid σ.
Proof.
  induction 1 as [σ r Hr|σ _ IH|σ _ IH|σ _ IH|σ _ IH|c w w' _ IH Hle].
  - destruct σ as [c w]. destruct (read_frame (c, w)) as [res σ1] eqn:Hread.
    simpl in Hr. subst res.
    destruct (read_frame_success _ _ _ _ Hread) as (cap & img & rest & _ & _ & _ & -> & ->).
    exists (length (heap w)). simpl. rewrite length_app. simpl. split; [reflexivity|lia].
  - destruct IH as (r & Hs & Hr). exists r. rewrite start_slot, start_heap. auto.
  - apply read_frame_slot_valid, IH.
  - destruct σ as [c w]. destruct IH as (r & Hs & Hr). simpl in Hs, Hr.
    rewrite latest_frame_outcome, Hs.
    destruct (lookup_lt_is_Some_2 _ _ Hr) as [a Ha]. rewrite Ha.
    exists r. simpl. rewrite length_app. split; [exact Hs|lia].
  - destruct σ as [c w]. destruct IH as (r & Hs & Hr). simpl in Hs, Hr.
    rewrite stop_outcome. exists r. simpl. split; [exact Hs|].
    destruct (_cap c); exact Hr.
  - destruct IH as (r & Hs & Hr). exists r. simpl in *. split; [exact Hs|lia].
Qed.

(** [stop] leaves the slot and the heap alone. *)
Lemma stop_keeps_slot c w r a :
  _latest_frame c = Some r ->
  heap w !! r = Some a ->
  let σ2 := snd (stop (c, w)) in
  _latest_frame (fst σ2) = Some r /\
  heap (snd σ2) !! r = Some a /\
  exists r',
    fst (latest_frame σ2) = Return (Some r') /\
    r' <> r /\
    heap (snd (snd (latest_frame σ2))) !! r' = Some a.
Proof.
  intros Hslot Ha σ2. subst σ2. rewrite stop_outcome.
  destruct c as [cfg cap running slot]. simpl in Hslot. subst slot.
  assert (Hlen : (r < length (heap w))%nat) by (eapply lookup_lt_Some; eassumption).
  destruct cap as [cap|]; simpl; rewrite latest_frame_outcome; simpl; rewrite Ha; simpl.
  all: repeat split; auto.
  all: exists (length (heap w)); repeat split; [lia|].
  all: rewrite lookup_app_r by lia; replace (_ - _)%nat with 0%nat by lia; reflexivity.
Qed.

(** C10. On a capture object whose [read_frame] has returned a frame
    at least once, the slot holds a frame; [stop] leaves it there, and
    [latest_frame] after [stop] returns a new array with that frame's
    contents. *)
Theorem stop_keeps_latest_frame cv2 σ :
  frame_captured cv2 σ ->
  exists r a r',
    _latest_frame (fst σ) = Some r /\
    heap (snd σ) !! r = Some a /\
    let σ2 := snd (stop σ) in
    _latest_frame (fst σ2) = Some r /\
    heap (snd σ2) !! r = Some a /\
    fst (latest_frame σ2) = Return (Some r') /\
    r' <> r /\
    heap (snd (snd (latest_frame σ2))) !! r' = Some a.
Proof.
  intros Hc. destruct (frame_captured_slot _ _ Hc) as (r & Hs & Hr).
  destruct (lookup_lt_is_Some_2 _ _ Hr) as [a Ha].
  destruct σ as [c w]. simpl in Hs, Ha.
  destruct (stop_keeps_slot c w r a Hs Ha) as (H1 & H2 & r' & H3 & H4 & H5).
  exists r, a, r'. repeat split; assumption.
Qed.

(** C7. A second [stop] changes neither the capture object nor the
    world beyond logging its line again, and a second [close] changes
    nothing at all. *)
Theorem stop_close_idempotent (c : GlassCapture) (w : World)
    (s : Storage.VideoStorage) (w' : World) :
  let σ1 := snd (stop (c, w)) in
  let σ2 := snd (stop σ1) in
  fst (stop σ1) = Return tt /\
  fst σ2 = fst σ1 /\
  unlogged (snd σ2) = unlogged (snd σ1) /\
  log (snd σ2) = log (snd σ1) ++ [mk_log "INFO" "Capture stopped"] /\
  Storage.close (snd (Storage.close (s, w'))) = (Return tt, snd (Storage.close (s, w'))).
Proof.
  intros σ1 σ2. subst σ2 σ1. rewrite !stop_outcome. simpl.
  repeat split.
  rewrite (close_outcome s w').
  destruct (Storage._writer s) eqn:E; simpl; rewrite close_outcome; simpl;
    [reflexivity | rewrite E; reflexivity].
Qed.

End CaptureFacts.

Lemma latest_frame_slot_witness :
  Capture._latest_frame (fst (snd (Capture.read_frame (capture_running, world0)))) = Some 0%nat /\
  Capture.latest_frame (Capture.__init__ default_CaptureConfig, world0) =
  (Return None, (Capture.__init__ default_CaptureConfig, world0)).
Proof.
  destruct (latest_frame_slot cv_ok) as [Hread Hnone]. split.
  - apply (Hread capture_running world0 0%nat _ eq_refl).
  - apply Hnone. apply nfy_init.
Defined.

Lemma stop_keeps_latest_frame_witness :
  exists r a r',
    heap (snd (snd (Capture.read_frame (capture_running, world0)))) !! r = Some a /\
    fst (Capture.latest_frame
           (snd (Capture.stop (snd (Capture.read_frame (capture_running, world0))))))
    = Return (Some r') /\
    heap (snd (snd (Capture.latest_frame
           (snd (Capture.stop (snd (Capture.read_frame (capture_running, world0))))))))
      !! r' = Some a.
Proof.
  destruct (stop_keeps_latest_frame cv_ok
              (snd (Capture.read_frame (capture_running, world0))))
    as (r & a & r' & _ & Ha & _ & _ & Hl & _ & Hc).
  - apply (fc_read cv_ok (capture_running, world0) 0%nat). reflexivity.
  - exists r, a, r'. split; [exact Ha|]. split; [exact Hl | exact Hc].
Defined.

Section StreamFacts.
Variable cv2 : Cv2.
Import Stream.

Lemma call_outcome {A} (m : M Capture.St A) src o g :
  objects g !! src = Some o ->
  call src m g =
  (fst (m (o, world g)),
   mk_Globals (<[src := fst (snd (m (o, world g)))]> (objects g)) (_frame_source g)
              (snd (snd (m (o, world g))))).
Proof.
  intros Ho. unfold call. rewrite Ho. destruct (m (o, world g)) as [res [o' w']]. reflexivity.
Qed.

Lemma no_frame_iteration quality g :
  no_frame_available g ->
  _generate_mjpeg_iteration cv2 quality g = (Return Continue, g).
Proof.
  intros [Hs | (src & o & Hs & Ho & Hslot)]; unfold _generate_mjpeg_iteration; run;
    rewrite Hs; [reflexivity|].
  run. rewrite (call_outcome _ _ _ _ Ho), latest_frame_outcome, Hslot. simpl.
  rewrite list_insert_id by exact Ho. destruct g; reflexivity.
Qed.

(** C4 (as amended). A pass through the generator's loop with no frame
    available returns to the head of the loop at once, with nothing
    yielded and the state and trace as they were; however many passes
    are allowed, the generator is still polling after them. *)
Theorem mjpeg_busy_polls quality g :
  no_frame_available g ->
  _generate_mjpeg_iteration cv2 quality g = (Return Continue, g) /\
  forall fuel, _generate_mjpeg cv2 quality fuel g = (Return None, g).
Proof.
  intros Hg. split; [apply no_frame_iteration, Hg|].
  induction fuel as [|fuel IH]; [reflexivity|].
  simpl. unfold mbind, M_bind. rewrite (no_frame_iteration _ _ Hg). exact IH.
Qed.

(** C5 (as amended). With no source attached, or no frame captured
    yet, [snapshot] returns an error dict and leaves the state alone.
    Once a source is attached and a read has returned a frame, it
    returns the JPEG encoding of that frame when the encoder succeeds
    and an error dict when it does not; it raises in none of these
    cases. *)
Theorem snapshot_results g :
  (_frame_source g = None ->
     snapshot cv2 g = (Return (JSONResponse [("error", "No capture source available")]), g))
  /\
  (forall src o,
     _frame_source g = Some src -> objects g !! src = Some o ->
     Capture._latest_frame o = None ->
     snapshot cv2 g = (Return (JSONResponse [("error", "No frame available")]), g))
  /\
  (forall src r g2,
     (set_frame_source src ;; call src Capture.read_frame) g = (Return (Some r), g2) ->
     exists a,
       heap (world g2) !! r = Some a /\
       fst (snapshot cv2 g2) =
       match imencode cv2 ".jpg" a 90 with
       | Some jpeg => Return (StreamingResponse [jpeg] "image/jpeg")
       | None => Return (JSONResponse [("error", "Failed to encode frame")])
       end).
Proof.
  repeat split.
  - intros Hs. unfold snapshot. run. rewrite Hs. reflexivity.
  - intros src o Hs Ho Hslot. unfold snapshot. run. rewrite Hs. run.
    rewrite (call_outcome _ _ _ _ Ho), latest_frame_outcome, Hslot. simpl.
    rewrite list_insert_id by exact Ho. destruct g; reflexivity.
  - intros src r g2. unfold set_frame_source. run.
    destruct (objects g !! src) as [o|] eqn:Ho.
    2:{ unfold call. simpl. rewrite Ho. discriminate. }
    erewrite call_outcome by (simpl; exact Ho). simpl.
    destruct (Capture.read_frame (o, world g)) as [res [o' w']] eqn:Hread. simpl.
    intros [= -> <-].
    destruct (read_frame_success _ _ _ _ Hread) as (cap & img & rest & _ & _ & _ & Hr & [= -> ->]).
    assert (Hlook : (heap (world g) ++ [img]) !! r = Some img).
    { subst r. rewrite lookup_app_r by lia. replace (_ - _)%nat with 0%nat by lia. reflexivity. }
    exists img. simpl. split; [exact Hlook|].
    unfold snapshot. run.
    assert (Ho' : <[src := Capture.set_latest_frame (Some r) o]> (objects g) !! src
                  = Some (Capture.set_latest_frame (Some r) o)).
    { apply list_lookup_insert_eq. eapply lookup_lt_Some. exact Ho. }
    erewrite call_outcome by exact Ho'.
    rewrite latest_frame_outcome. simpl. rewrite Hlook. simpl.
    unfold deref. run.
    rewrite lookup_app_r by lia. replace (_ - _)%nat with 0%nat by lia. simpl.
    destruct (imencode cv2 ".jpg" img 90); reflexivity.
Qed.

End StreamFacts.

(** C4 (as stated) fails: with no source attached a pass through the
    loop neither yields nor sleeps. *)
Lemma mjpeg_pause_counterexample :
  ~ (forall cv2 quality g,
       no_frame_available g ->
       pauses g (Stream._generate_mjpeg_iteration cv2 quality g)).
Proof.
  intros H.
  destruct (H cv_ok 80 globals_detached (or_introl eq_refl)) as [[part Hy] | [seconds Hin]].
  - discriminate Hy.
  - exact Hin.
Qed.

Lemma mjpeg_busy_polls_witness :
  Stream._generate_mjpeg cv_ok 80 1000 globals_detached = (Return None, globals_detached).
Proof.
  apply (mjpeg_busy_polls cv_ok 80 globals_detached). left. reflexivity.
Defined.

(** C5 (as stated) fails: a source is attached and a frame has been
    read, the encoder reports failure, and [snapshot] returns an error
    dict instead of an image. *)
Lemma snapshot_image_counterexample :
  ~ (forall cv2 g src r g2,
       (Stream.set_frame_source src ;; Stream.call src Capture.read_frame) g
         = (Return (Some r), g2) ->
       exists jpeg,
         jpeg <> [] /\
         fst (Stream.snapshot cv2 g2) = Return (Stream.StreamingResponse [jpeg] "image/jpeg")).
Proof.
  intros H.
  destruct (H cv_failing globals_detached 0%nat 0%nat _ eq_refl) as (jpeg & _ & Hs).
  vm_compute in Hs. discriminate Hs.
Qed.

Lemma snapshot_results_witness :
  Stream.snapshot cv_ok globals_detached =
    (Return (Stream.JSONResponse [("error", "No capture source available")]), globals_detached)
  /\
  fst (Stream.snapshot cv_ok
         (snd ((Stream.set_frame_source 0 ;; Stream.call 0 Capture.read_frame) globals_detached)))
  = Return (Stream.StreamingResponse [[1; 2; 3]] "image/jpeg").
Proof.
  split.
  - apply (snapshot_results cv_ok globals_detached). reflexivity.
  - destruct (snapshot_results cv_ok globals_detached) as (_ & _ & Hread).
    destruct (Hread 0%nat 0%nat _ eq_refl) as (a & Ha & Hs).
    vm_compute in Ha. injection Ha as <-. exact Hs.
Defined.

Section MainFacts.
Variable cv2 : Cv2.
Import Main.

Lemma run_loop_S {T} call (onf : option (nat -> M T unit)) signals i fuel :
  Capture.run_loop call onf signals i (S fuel) =
  (match signals i with Some handler => handler | None => mret tt end ;;
   s ← call _ Capture.self ;
   if Capture._running s then
     frame ← call _ Capture.read_frame ;
     match frame, onf with
     | Some fr, Some f => f fr
     | _, _ => mret tt
     end ;;
     Capture.run_loop call onf signals (S i) fuel
   else mret (Some tt)).
Proof. reflexivity. Qed.

Lemma in_stream_call_length {A} capture (m : M Capture.St A) p :
  length (Stream.objects (py (snd (in_stream (Stream.call capture m) p)))) =
  length (Stream.objects (py p)).
Proof.
  unfold in_stream, zoom, Stream.call.
  destruct (Stream.objects (py p) !! capture) as [o|]; [|reflexivity].
  destruct (m (o, Stream.world (py p))) as [res [o' w']]. simpl.
  apply length_insert.
Qed.

Lemma on_frame_objects fr p :
  Stream.objects (py (snd (on_frame cv2 fr p))) = Stream.objects (py p).
Proof.
  unfold on_frame. rewrite bind_eq. unfold get.
  destruct (storage_var p) as [st|]; [|reflexivity].
  rewrite bind_eq. unfold in_stream, zoom, Stream.deref. rewrite bind_eq. unfold get.
  destruct (heap (Stream.world (py p)) !! fr) as [a|]; simpl; [|reflexivity].
  unfold with_storage. simpl.
  destruct (Storage.write_frame cv2 a (st, Stream.world (py p))) as [res [st' w']].
  reflexivity.
Qed.

Lemma shutdown_exits capture p :
  (capture < length (Stream.objects (py p)))%nat ->
  fst (shutdown capture p) = Raise (SystemExit 0).
Proof.
  intros Hv. apply lookup_lt_is_Some_2 in Hv. destruct Hv as [o Ho].
  unfold shutdown. rewrite bind_eq. unfold in_world at 1, modify at 1.
  rewrite bind_eq. unfold in_stream, zoom. cbn [py Stream.set_world storage_var].
  erewrite call_outcome by (simpl; exact Ho). rewrite stop_outcome. cbn [fst snd].
  rewrite bind_eq. unfold get. rewrite bind_eq. cbn [storage_var].
  destruct (storage_var p) as [st|]; [|reflexivity].
  unfold with_storage. cbn [py Stream.world].
  rewrite close_outcome. destruct (Storage._writer st); reflexivity.
Qed.

Lemma capture_loop_signal capture k : forall i p p' f,
  (capture < length (Stream.objects (py p)))%nat ->
  capture_loop cv2 capture None i k p = (Return None, p') ->
  fst (capture_loop cv2 capture (Some (i + k)%nat) i (k + S f) p) = Raise (SystemExit 0).
Proof.
  induction k as [|k IH]; intros i p p' f Hv Hrun.
  - unfold capture_loop. cbn [Nat.add]. rewrite run_loop_S, bind_eq.
    unfold signals_at. rewrite Nat.add_0_r. rewrite decide_True by reflexivity.
    pose proof (shutdown_exits capture p Hv) as Hs.
    destruct (shutdown capture p) as [[[]|e] p1]; simpl in Hs; [discriminate|].
    simpl. injection Hs as ->. reflexivity.
  - unfold capture_loop in *. cbn [Nat.add]. rewrite run_loop_S, bind_eq in Hrun |- *.
    unfold signals_at at 1 in Hrun. unfold signals_at at 1.
    rewrite decide_False in Hrun by discriminate.
    rewrite decide_False by (intros [= ?]; lia).
    change (@mret (M Process) _ unit () p) with (@Return unit (), p) in Hrun |- *.
    cbv beta iota in Hrun |- *.
    rewrite bind_eq in Hrun |- *.
    pose proof (in_stream_call_length capture Capture.self p) as Hl1.
    unfold compose in Hrun |- *.
    destruct (in_stream (Stream.call capture Capture.self) p) as [[s|e] p1];
      [|discriminate Hrun].
    simpl in Hl1.
    destruct (Capture._running s); [|discriminate Hrun].
    rewrite bind_eq in Hrun |- *.
    pose proof (in_stream_call_length capture Capture.read_frame p1) as Hl2.
    destruct (in_stream (Stream.call capture Capture.read_frame) p1) as [[frame|e] p2];
      [|discriminate Hrun].
    simpl in Hl2.
    rewrite bind_eq in Hrun |- *.
    assert (Hstep : exists r p3,
               match frame with
               | Some fr => on_frame cv2 fr
               | None => mret ()
               end p2 = (r, p3) /\
               length (Stream.objects (py p3)) = length (Stream.objects (py p2))).
    { destruct frame as [fr|].
      - pose proof (on_frame_objects fr p2) as Ho.
        destruct (on_frame cv2 fr p2) as [r p3]. exists r, p3. simpl in Ho.
        rewrite Ho. auto.
      - exists (Return ()), p2. auto. }
    destruct Hstep as (r & p3 & Hstep & Hl3). rewrite Hstep in Hrun |- *.
    destruct r as [[]|e]; [|discriminate Hrun].
    replace (i + S k)%nat with (S i + k)%nat by lia.
    eapply IH; [|exact Hrun]. lia.
Qed.

Lemma in_stream_call_outcome {A} (m : M Capture.St A) r o p :
  Stream.objects (py p) !! r = Some o ->
  in_stream (Stream.call r m) p =
  (fst (m (o, Stream.world (py p))),
   mk_Process
     (Stream.mk_Globals (<[r := fst (snd (m (o, Stream.world (py p))))]> (Stream.objects (py p)))
                        (Stream._frame_source (py p))
                        (snd (snd (m (o, Stream.world (py p))))))
     (storage_var p)).
Proof.
  intros Ho. unfold in_stream, zoom. rewrite (call_outcome _ _ _ _ Ho). reflexivity.
Qed.

(** [main] as the sequence of its steps on the process it has set up. *)
Lemma main_eq args sigterm fuel w :
  main cv2 args sigterm fuel (boot w) =
  (deliver sigterm 0 BeforeStart ;;
   connect cv2 0 ;;
   deliver sigterm 0 BeforeOpen ;;
   opening cv2 (config_of args) ;;
   deliver sigterm 0 BeforeStreaming ;;
   modify (announce (config_of args) 0) ;;
   capture_loop cv2 0 (in_loop sigterm) 0 fuel) (launched args w).
Proof.
  unfold main. rewrite bind_eq.
  change (in_stream (Stream.new_GlassCapture (capture (config_of args))) (boot w))
    with (Return 0%nat,
          mk_Process (Stream.mk_Globals [Capture.__init__ (capture (config_of args))] None w)
                     None).
  cbv beta iota zeta.
  rewrite bind_eq. unfold set_storage_var at 1, modify at 1. cbv beta iota.
  cbn [py storage_var]. fold (launched args w).
  apply bind_ext. intros _ p0. fold (connect cv2 0).
  apply bind_ext. intros _ p1.
  apply bind_ext. intros _ p2.
  unfold opening. rewrite bind_assoc.
  apply bind_ext. intros p p3.
  apply bind_ext. intros _ p4.
  apply bind_ext. intros _ p5.
  unfold announce, modify, capture_loop, signals_at, on_frame.
  destruct (enable_streaming (config_of args)); reflexivity.
Qed.

Lemma deliver_other sigterm capture c p :
  sigterm <> Some c -> deliver sigterm capture c p = (Return tt, p).
Proof. intros H. unfold deliver. rewrite decide_False by exact H. reflexivity. Qed.

Lemma deliver_here capture c p :
  (capture < length (Stream.objects (py p)))%nat ->
  fst (deliver (Some c) capture c p) = Raise (SystemExit 0).
Proof.
  intros H. unfold deliver. rewrite decide_True by reflexivity. apply shutdown_exits, H.
Qed.

(** The start of the capture on the process [main] has set up. *)
Lemma connect_outcome args w :
  let started := Capture.start cv2 (Capture.__init__ (capture (config_of args)), w) in
  let p1 := mk_Process (Stream.mk_Globals [fst (snd started)] None (snd (snd started)))
                       (storage_var (launched args w)) in
  connect cv2 0 (launched args w) =
  match fst started with
  | Return _ => (Return tt, p1)
  | Raise (ConnectionError _) =>
      (Raise (SystemExit 1),
       mk_Process (Stream.mk_Globals [fst (snd started)] None
                     (logger "ERROR" "Failed to connect: %s" (snd (snd started))))
                  (storage_var (launched args w)))
  | Raise e => (Raise e, p1)
  end.
Proof.
  cbv zeta. unfold connect, try_except.
  erewrite in_stream_call_outcome by reflexivity.
  cbn [py Stream.world Stream.objects Stream._frame_source launched].
  destruct (fst (Capture.start cv2 (Capture.__init__ (capture (config_of args)), w)))
    as [[]|e]; [reflexivity|].
  destruct e; reflexivity.
Qed.

Lemma connect_length capture p :
  length (Stream.objects (py (snd (connect cv2 capture p)))) = length (Stream.objects (py p)).
Proof.
  unfold connect, try_except.
  pose proof (in_stream_call_length capture (Capture.start cv2) p) as Hl.
  destruct (in_stream (Stream.call capture (Capture.start cv2)) p) as [[[]|e] p1];
    simpl in Hl; [exact Hl|].
  destruct e; exact Hl.
Qed.

Lemma opening_objects config p :
  Stream.objects (py (snd (opening cv2 config p))) = Stream.objects (py p).
Proof.
  unfold opening. rewrite bind_eq. unfold get. cbv beta iota.
  destruct (storage_var p) as [st|]; [|reflexivity].
  rewrite bind_eq. unfold with_storage.
  destruct (Storage.open cv2 _ _ _ _) as [[path|e] [st' w']]; reflexivity.
Qed.

Lemma announce_objects config capture p :
  Stream.objects (py (announce config capture p)) = Stream.objects (py p).
Proof. unfold announce. destruct (enable_streaming config); reflexivity. Qed.

(** C8. When [start] raises [ConnectionError], [main] logs the error
    and exits with status 1, having called [start] once and nothing
    after it.  When a termination signal arrives at a checkpoint the
    run gets to, before the capture is started, before the recorder is
    opened, before the live view is set up or at the head of a pass
    through the capture loop, the handler runs and the process exits
    with status 0. *)
Theorem main_exit_status args w :
  let started := Capture.start cv2 (Capture.__init__ (capture (config_of args)), w) in
  (forall sigterm fuel msg c' w',
     sigterm <> Some BeforeStart ->
     started = (Raise (ConnectionError msg), (c', w')) ->
     main cv2 args sigterm fuel (boot w) =
       (Raise (SystemExit 1),
        mk_Process (Stream.mk_Globals [c'] None (logger "ERROR" "Failed to connect: %s" w'))
                   (storage_var (launched args w))) /\
     exit_status (fst (main cv2 args sigterm fuel (boot w))) = Some 1)
  /\
  (forall fuel,
     exit_status (fst (main cv2 args (Some BeforeStart) fuel (boot w))) = Some 0)
  /\
  (forall fuel,
     fst started = Return tt ->
     exit_status (fst (main cv2 args (Some BeforeOpen) fuel (boot w))) = Some 0)
  /\
  (forall fuel p,
     main cv2 args None 0 (boot w) = (Return None, p) ->
     exit_status (fst (main cv2 args (Some BeforeStreaming) fuel (boot w))) = Some 0)
  /\
  (forall k f p,
     main cv2 args None k (boot w) = (Return None, p) ->
     exit_status (fst (main cv2 args (Some (InLoop k)) (k + S f) (boot w))) = Some 0).
Proof.
  cbv zeta. split; [|split; [|split; [|split]]].
  - intros sigterm fuel msg c' w' Hsig Hstart.
    rewrite main_eq, bind_eq, deliver_other by exact Hsig.
    rewrite bind_eq, connect_outcome. cbv zeta. rewrite Hstart. simpl. split; reflexivity.
  - intros fuel. rewrite main_eq, bind_eq.
    pose proof (deliver_here 0 BeforeStart (launched args w)) as Hs.
    destruct (deliver (Some BeforeStart) 0 BeforeStart (launched args w)) as [r p0].
    simpl in Hs. rewrite Hs by lia. reflexivity.
  - intros fuel Hstart. rewrite main_eq, bind_eq, deliver_other by discriminate.
    rewrite bind_eq, connect_outcome. cbv zeta. rewrite Hstart. rewrite bind_eq.
    match goal with |- context [deliver (Some BeforeOpen) 0 BeforeOpen ?p1] =>
      pose proof (deliver_here 0 BeforeOpen p1) as Hs;
      destruct (deliver (Some BeforeOpen) 0 BeforeOpen p1) as [r p2]
    end.
    simpl in Hs. rewrite Hs by lia. reflexivity.
  - intros fuel p Hrun. rewrite main_eq in Hrun |- *.
    rewrite bind_eq, deliver_other in Hrun |- * by discriminate.
    rewrite bind_eq in Hrun |- *.
    pose proof (connect_length 0 (launched args w)) as Hl1.
    destruct (connect cv2 0 (launched args w)) as [[[]|e] p1]; [|discriminate Hrun].
    rewrite bind_eq, deliver_other in Hrun |- * by discriminate.
    rewrite bind_eq in Hrun |- *.
    pose proof (opening_objects (config_of args) p1) as Hl2.
    destruct (opening cv2 (config_of args) p1) as [[[]|e] p2]; [|discriminate Hrun].
    simpl in Hl1, Hl2. rewrite bind_eq.
    pose proof (deliver_here 0 BeforeStreaming p2) as Hs.
    destruct (deliver (Some BeforeStreaming) 0 BeforeStreaming p2) as [r p3].
    simpl in Hs. rewrite Hs; [reflexivity|]. rewrite Hl2, Hl1. simpl. lia.
  - intros k f p Hrun. rewrite main_eq in Hrun |- *.
    rewrite bind_eq, deliver_other in Hrun |- * by discriminate.
    rewrite bind_eq in Hrun |- *.
    pose proof (connect_length 0 (launched args w)) as Hl1.
    destruct (connect cv2 0 (launched args w)) as [[[]|e] p1]; [|discriminate Hrun].
    rewrite bind_eq, deliver_other in Hrun |- * by discriminate.
    rewrite bind_eq in Hrun |- *.
    pose proof (opening_objects (config_of args) p1) as Hl2.
    destruct (opening cv2 (config_of args) p1) as [[[]|e] p2]; [|discriminate Hrun].
    simpl in Hl1, Hl2.
    rewrite bind_eq, deliver_other in Hrun |- * by discriminate.
    rewrite bind_eq in Hrun |- *. unfold modify in Hrun |- *. cbv beta iota in Hrun |- *.
    cbn [in_loop] in Hrun |- *.
    erewrite (capture_loop_signal 0 k 0 _ _ f); [reflexivity| |exact Hrun].
    rewrite announce_objects, Hl2, Hl1. simpl. lia.
Qed.

End MainFacts.

Lemma main_exit_status_witness :
  Main.exit_status (fst (Main.main cv_ok args_default None 5 (Main.boot world_no_device)))
    = Some 1 /\
  Main.exit_status (fst (Main.main cv_ok args_default (Some Main.BeforeStart) 5
                                   (Main.boot world0))) = Some 0 /\
  Main.exit_status (fst (Main.main cv_ok args_default (Some Main.BeforeOpen) 5
                                   (Main.boot world0))) = Some 0 /\
  Main.exit_status (fst (Main.main cv_ok args_no_save (Some Main.BeforeStreaming) 5
                                   (Main.boot world0))) = Some 0 /\
  Main.exit_status (fst (Main.main cv_ok args_no_save (Some (Main.InLoop 2)) 3
                                   (Main.boot world0))) = Some 0.
Proof.
  split; [|split; [|split; [|split]]].
  - destruct (main_exit_status cv_ok args_default world_no_device) as [Hfail _].
    eapply (Hfail None 5%nat); [discriminate|]. vm_compute. reflexivity.
  - destruct (main_exit_status cv_ok args_default world0) as (_ & Hsig & _).
    apply Hsig.
  - destruct (main_exit_status cv_ok args_default world0) as (_ & _ & Hsig & _).
    apply Hsig. vm_compute. reflexivity.
  - destruct (main_exit_status cv_ok args_no_save world0) as (_ & _ & _ & Hsig & _).
    eapply Hsig. vm_compute. reflexivity.
  - destruct (main_exit_status cv_ok args_no_save world0) as (_ & _ & _ & _ & Hsig).
    eapply (Hsig 2%nat 0%nat). vm_compute. reflexivity.
Defined.

(** * Further properties *)

Section StorageExtras.
Variable cv2 : Cv2.
Import Storage.

(** The three ways a call of [write_frame] can go. *)
Lemma write_frame_cases s w frame :
  (_writer s = None /\
   write_frame cv2 frame (s, w) =
     (Raise (RuntimeError "Storage not opened. Call open() first."), (s, w)))
  \/
  exists wr, _writer s = Some wr /\
    (fst (_should_rotate (written cv2 wr frame (s, w))) = Return false /\
     write_frame cv2 frame (s, w) = (Return tt, written cv2 wr frame (s, w))
     \/
     fst (_should_rotate (written cv2 wr frame (s, w))) = Return true /\
     snd (write_frame cv2 frame (s, w)) =
       snd (open cv2 (shape_w frame) (shape_h frame) (_fps s)
              (snd (close (written cv2 wr frame (s, w)))))).
Proof.
  destruct (_writer s) as [wr|] eqn:Hw.
  - right. exists wr. split; [reflexivity|].
    rewrite (write_frame_unfold cv2 _ _ _ _ Hw).
    destruct (should_rotate_pure (written cv2 wr frame (s, w))) as [b Hb].
    rewrite bind_eq, Hb. destruct b.
    + right. split; [reflexivity|].
      rewrite written_eq. run. rewrite !close_outcome. simpl. rewrite Hw. run.
      destruct (open cv2 _ _ _ _) as [[p|e] σ']; reflexivity.
    + left. split; reflexivity.
  - left. split; [reflexivity|]. unfold write_frame. run. rewrite Hw. reflexivity.
Qed.

Lemma recorder_inv_set_fps fps s : recorder_inv s -> recorder_inv (set_fps fps s).
Proof. intros H. exact H. Qed.

Lemma open_inv width height fps s w :
  recorder_inv s ->
  recorder_inv (fst (snd (open cv2 width height fps (s, w)))) /\
  config (fst (snd (open cv2 width height fps (s, w)))) = config s.
Proof.
  intros Hinv. pose proof (recorder_inv_set_fps fps s Hinv) as Hinv'.
  rewrite open_outcome.
  destruct (output_dir (config s)) as [dir|str] eqn:Hdir; [|split; [exact Hinv'|reflexivity]].
  destruct (mkdir_error dir (fs w)) as [e|]; [split; [exact Hinv'|reflexivity]|].
  cbv zeta. destruct (Nat.eqb_spec (String.length (codec (config s))) 4) as [Hlen|Hlen].
  - destruct Hinv as [Hc _].
    case_if; cbn [fst snd]; (split; [|reflexivity]); (split; [simpl; lia|]);
      simpl; intros wr [= <-]; simpl; eauto 10.
  - cbn [fst snd]. split; [|reflexivity]. destruct Hinv as [Hc Hwr]. split; [exact Hc|].
    simpl. intros wr Hw. destruct (Hwr wr Hw) as (_ & _ & Hfour & _). contradiction.
Qed.

(** X1. The methods of the recorder keep its fields consistent. *)
Theorem recorder_invariant cfg σ :
  recorder_reachable cv2 cfg σ ->
  config (fst σ) = cfg /\ recorder_inv (fst σ).
Proof.
  induction 1 as [w|[s w] width height fps _ [Hcfg Hinv]|[s w] frame _ [Hcfg Hinv]
                 |[s w] _ [Hcfg Hinv]|s w w' _ IH]; simpl in *.
  - split; [reflexivity|]. split; [simpl; lia|]. intros wr [=].
  - destruct (open_inv width height fps s w Hinv) as [H1 H2].
    split; [congruence | exact H1].
  - destruct (write_frame_cases s w frame) as [[_ ->] | (wr & Hw & [[_ ->] | [_ ->]])].
    + auto.
    + rewrite written_eq. simpl. split; [exact Hcfg|].
      destruct Hinv as [Hc Hwr]. split; [simpl; lia|]. exact Hwr.
    + rewrite written_eq, close_outcome. simpl. rewrite Hw. simpl.
      match goal with |- context [open cv2 ?a ?b ?c (?s1, ?w1)] =>
        destruct (open_inv a b c s1 w1) as [H1 H2] end.
      { destruct Hinv as [Hc _]. split; [simpl; lia|]. intros wr0 [=]. }
      split; [rewrite H2; exact Hcfg | exact H1].
  - rewrite close_outcome. destruct (_writer s) eqn:Hw; simpl; [|auto].
    split; [exact Hcfg|]. destruct Hinv as [Hc _]. split; [exact Hc|]. intros wr [=].
  - exact IH.
Qed.

Lemma write_frame_stays s w wr frame :
  _writer s = Some wr ->
  fst (_should_rotate (written cv2 wr frame (s, w))) = Return false ->
  write_frame cv2 frame (s, w) = (Return tt, written cv2 wr frame (s, w)).
Proof.
  intros Hw Hrot.
  destruct (write_frame_cases s w frame) as [[Hn _] | (wr' & Hw' & [[_ H] | [H _]])].
  - congruence.
  - congruence.
  - assert (wr' = wr) by congruence. subst wr'. congruence.
Qed.

Lemma should_rotate_unlimited s w :
  max_file_size_mb (config s) <= 0 -> fst (_should_rotate (s, w)) = Return false.
Proof.
  intros Hmax. unfold _should_rotate. run.
  destruct (Z.leb_spec (max_file_size_mb (config s)) 0); [reflexivity|lia].
Qed.

(** X2. With rotation switched off, a batch of frames of the writer's
    size written to an open recorder all reach its file, in the order
    written. *)
Theorem write_frames_in_order batch : forall s w wr f0,
  _writer s = Some wr ->
  vw_opened wr = true ->
  Forall (fits wr) batch ->
  max_file_size_mb (config s) <= 0 ->
  fs w !! vw_path wr = Some f0 ->
  exists s' w',
    write_frames cv2 batch (s, w) = (Return tt, (s', w')) /\
    config s' = config s /\
    _writer s' = Some wr /\
    _frame_count s' = _frame_count s + Z.of_nat (length batch) /\
    fs w' !! vw_path wr =
      Some (mk_File (st_size f0 + batch_bytes cv2 batch) (frames f0 ++ batch)) /\
    (forall p, p <> vw_path wr -> fs w' !! p = fs w !! p) /\
    trace w' = trace w ++ map (EvWrite (vw_path wr)) batch.
Proof.
  induction batch as [|frame rest IH]; intros s w wr f0 Hw Hop Hfit Hmax Hf0.
  - exists s, w. simpl. rewrite Z.add_0_r, !app_nil_r. destruct f0. simpl.
    rewrite Z.add_0_r. repeat split; auto.
  - simpl. rewrite bind_eq.
    apply Forall_cons in Hfit. destruct Hfit as [Hfit Hfits].
    rewrite (write_frame_stays s w wr frame Hw).
    2:{ rewrite written_eq. apply should_rotate_unlimited. exact Hmax. }
    rewrite written_eq, (accepts_fits wr frame Hop Hfit).
    set (f1 := mk_File (st_size f0 + VideoWriter_bytes cv2 frame) (frames f0 ++ [frame])).
    destruct (IH (set_frame_count (_frame_count s + 1) s)
                 (set_fs (alter (fun f => mk_File (st_size f + VideoWriter_bytes cv2 frame)
                                                  (frames f ++ [frame])) (vw_path wr))
                         (emit (EvWrite (vw_path wr) frame) w))
                 wr f1 Hw Hop Hfits Hmax)
      as (s' & w' & Hrun & Hcfg & Hw' & Hcount & Hfile & Hother & Htrace).
    { simpl. rewrite lookup_alter_eq, Hf0. reflexivity. }
    exists s', w'. split; [exact Hrun|]. split; [exact Hcfg|]. split; [exact Hw'|].
    split; [rewrite Hcount; simpl _frame_count; lia|].
    split.
    { rewrite Hfile. subst f1. simpl. rewrite <- app_assoc. simpl.
      f_equal. f_equal. lia. }
    split.
    { intros p Hp. rewrite (Hother p Hp). simpl. apply lookup_alter_ne. congruence. }
    rewrite Htrace. simpl. rewrite <- app_assoc. reflexivity.
Qed.


(** X4. A rotation for which the clock still shows the second in which
    the session was opened names the new file like the old one: the
    writer is created again on the same path, and the frames written
    so far are no longer in that file. *)
Theorem rotation_same_second_reuses_path s w wr frame f dir :
  _writer s = Some wr ->
  opens_in (config s) w dir ->
  _current_path s = Some (session_path dir (config s) w) ->
  0 < max_file_size_mb (config s) ->
  fs (snd (written cv2 wr frame (s, w))) !! Path_str (session_path dir (config s) w) = Some f ->
  max_file_size_mb (config s) * (1024 * 1024) <= st_size f ->
  VideoWriter_isOpened cv2 (Path_str (session_path dir (config s) w)) (codec (config s)) (_fps s)
                       (shape_w frame) (shape_h frame) = true ->
  exists s' w',
    write_frame cv2 frame (s, w) = (Return tt, (s', w')) /\
    current_file s' = current_file s /\
    is_recording s' = true /\
    _frame_count s' = 0 /\
    fs w' !! Path_str (session_path dir (config s) w) =
      Some (mk_File (VideoWriter_header cv2 (Path_str (session_path dir (config s) w))
                                        (codec (config s)) (_fps s)
                                        (shape_w frame) (shape_h frame)) []).
Proof.
  intros Hw Hin Hpath Hmax Hf Hsize Hok.
  assert (Hrot : fst (_should_rotate (written cv2 wr frame (s, w))) = Return true).
  { destruct (written cv2 wr frame (s, w)) as [s1 w1] eqn:Eσ.
    assert (Hs1 : s1 = set_frame_count (_frame_count s + 1) s).
    { rewrite written_eq in Eσ. congruence. }
    simpl in Hf. subst s1. unfold _should_rotate. run.
    destruct (Z.leb_spec (max_file_size_mb (config s)) 0); [lia|].
    rewrite Hpath. run. rewrite Hf. run.
    destruct (Z.leb_spec (max_file_size_mb (config s) * (1024 * 1024)) (st_size f));
      [reflexivity|lia]. }
  rewrite (write_frame_rotates cv2 s w wr frame dir Hw Hrot Hin). cbv zeta. rewrite Hok.
  eexists _, _. split; [reflexivity|]. unfold current_file. simpl.
  repeat split; auto. apply lookup_insert_eq.
Qed.

(** X5. A successful [open] returns the path [current_file] then
    reports: the file name joined to the output directory as [pathlib]
    joins them.  The directory exists, the file holds the header the
    writer has put there and no frame yet, and the frame count is
    zero; [close] releases that writer once, after which the recorder
    is not recording but still reports the path. *)
Theorem open_close_lifecycle s w width height fps path σ1 :
  open cv2 width height fps (s, w) = (Return path, σ1) ->
  exists dir,
    output_dir (config s) = PosixPath dir /\
    path = Path_truediv dir (filename_prefix (config s) +:+ "_" +:+ now w +:+
                             container (config s)) /\
    is_recording (fst σ1) = true /\
    current_file (fst σ1) = Some path /\
    _frame_count (fst σ1) = 0 /\
    Path_str dir ∈ dirs (snd σ1) /\
    fs (snd σ1) !! Path_str path =
      Some (mk_File (VideoWriter_header cv2 (Path_str path) (codec (config s))
                                        fps width height) []) /\
    is_recording (fst (snd (close σ1))) = false /\
    current_file (fst (snd (close σ1))) = Some path /\
    trace (snd (snd (close σ1))) = trace (snd σ1) ++ [EvWriterRelease (Path_str path)].
Proof.
  rewrite open_outcome.
  destruct (output_dir (config s)) as [dir|str]; [|discriminate].
  destruct (mkdir_error dir (fs w)); [discriminate|]. cbv zeta.
  destruct (Nat.eqb (String.length (codec (config s))) 4); [|discriminate].
  case_if; [|discriminate].
  intros [= <- <-]. exists dir. rewrite close_outcome. unfold is_recording, current_file. simpl.
  repeat split; auto.
  - apply elem_of_union_l, elem_of_list_to_set, list_elem_of_In, in_map, in_or_app.
    right. left. reflexivity.
  - apply lookup_insert_eq.
Qed.


End StorageExtras.

Section CaptureExtras.
Import Capture.

Lemma start_outcome cv2 c w :
  start cv2 (c, w) =
  if String.eqb (mode (config c)) "rtsp" then
    let url := rtsp_url (config c) in
    let ok := VideoCapture_isOpened cv2 url in
    if ok then
      (Return tt,
       (mk_GlassCapture (config c) (Some (mk_VideoCapture url true)) true (_latest_frame c),
        logger "INFO" "Capture started (mode=%s)" (emit (EvVideoCapture url true) w)))
    else
      (Raise (ConnectionError ("Cannot connect to RTSP stream: " +:+ url)),
       (set_cap (Some (mk_VideoCapture url false)) c, emit (EvVideoCapture url false) w))
  else if String.eqb (mode (config c)) "adb" then
    match adb_devices w with
    | Some out =>
        let w1 := emit (EvSubprocess (["adb"] ++ adb_serial_args (config c) ++ ["devices"])) w in
        if str_in "device" (split_newline_last out) then
          let src := adb_pipeline (config c) in
          let ok := VideoCapture_isOpened cv2 src in
          if ok then
            (Return tt,
             (mk_GlassCapture (config c) (Some (mk_VideoCapture src true)) true
                              (_latest_frame c),
              logger "INFO" "Capture started (mode=%s)" (emit (EvVideoCapture src true) w1)))
          else
            (Raise (ConnectionError "Failed to open ADB capture pipeline."),
             (set_cap (Some (mk_VideoCapture src false)) c, emit (EvVideoCapture src false) w1))
        else
          (Raise (ConnectionError "No ADB device found. Connect glasses via USB or WiFi ADB."),
           (c, w1))
    | None => (Raise FileNotFoundError, (c, w))
    end
  else (Raise (ValueError ("Unknown capture mode: " +:+ mode (config c))), (c, w)).
Proof.
  unfold start, _start_rtsp, _start_adb, new_VideoCapture, subprocess_run. run.
  destruct (String.eqb (mode (config c)) "rtsp"); run.
  - destruct (VideoCapture_isOpened cv2 (rtsp_url (config c))); reflexivity.
  - destruct (String.eqb (mode (config c)) "adb"); run; [|reflexivity].
    destruct (adb_devices w) as [out|]; run; [|reflexivity].
    fold (adb_serial_args (config c)).
    destruct (str_in "device" (split_newline_last out)); run; [|reflexivity].
    repeat match goal with
           | |- context [VideoCapture_isOpened cv2 ?x] =>
               progress change x with (adb_pipeline (config c))
           | |- context [mk_VideoCapture ?x] =>
               progress change x with (adb_pipeline (config c))
           | |- context [EvVideoCapture ?x] =>
               progress change x with (adb_pipeline (config c))
           end.
    destruct (VideoCapture_isOpened cv2 (adb_pipeline (config c))); reflexivity.
Qed.

(** X6. [start] returns only with an opened capture and the object
    running; when it raises, the object runs no more than before and
    keeps its latest frame. *)
Theorem start_postconditions cv2 c w r c' w' :
  start cv2 (c, w) = (r, (c', w')) ->
  config c' = config c /\
  _latest_frame c' = _latest_frame c /\
  heap w' = heap w /\
  match r with
  | Return _ =>
      is_running c' = true /\
      exists cap, _cap c' = Some cap /\ vc_opened cap = true
  | Raise e => is_running c' = is_running c /\ start_error e
  end.
Proof.
  rewrite start_outcome. unfold start_error, is_running.
  repeat case_if; try destruct (adb_devices w) as [out|]; repeat case_if;
    intros [= <- <- <-]; simpl; repeat split; eauto.
Qed.

(** X7. Without a device listed by [adb devices], and with a mode that
    is neither ["rtsp"] nor ["adb"], [start] raises before it creates
    a capture: the object is left as it was. *)
Theorem start_refuses_early cv2 c w :
  (mode (config c) <> "rtsp" -> mode (config c) <> "adb" ->
   start cv2 (c, w) =
     (Raise (ValueError ("Unknown capture mode: " +:+ mode (config c))), (c, w)))
  /\
  (forall out,
     mode (config c) = "adb" -> adb_devices w = Some out ->
     str_in "device" (split_newline_last out) = false ->
     start cv2 (c, w) =
       (Raise (ConnectionError "No ADB device found. Connect glasses via USB or WiFi ADB."),
        (c, emit (EvSubprocess (["adb"] ++ adb_serial_args (config c) ++ ["devices"])) w))).
Proof.
  split.
  - intros Hr Ha. rewrite start_outcome.
    destruct (String.eqb_spec (mode (config c)) "rtsp"); [contradiction|].
    destruct (String.eqb_spec (mode (config c)) "adb"); [contradiction|]. reflexivity.
  - intros out Hm Hout Hdev. rewrite start_outcome, Hm, Hout. simpl. rewrite Hdev.
    reflexivity.
Qed.

(** X8. A capture that is not running reads nothing: [read_frame]
    returns [None] and leaves the object, the camera and the log
    alone.  This is so after [stop], and after a [start] on a new
    object that raised. *)
Theorem read_frame_inactive c w :
  (_cap c = None \/ _running c = false -> read_frame (c, w) = (Return None, (c, w))) /\
  read_frame (snd (stop (c, w))) = (Return None, snd (stop (c, w))) /\
  (forall cv2 cfg e σ',
     start cv2 (__init__ cfg, w) = (Raise e, σ') ->
     read_frame σ' = (Return None, σ')).
Proof.
  assert (Hgen : forall c0 w0, _cap c0 = None \/ _running c0 = false ->
                   read_frame (c0, w0) = (Return None, (c0, w0))).
  { intros c0 w0 H. rewrite read_frame_outcome.
    destruct (_cap c0) as [cap|]; [|reflexivity].
    destruct H as [H|H]; [discriminate|]. rewrite H. reflexivity. }
  split; [apply Hgen|]. split.
  - rewrite stop_outcome. apply Hgen. left. reflexivity.
  - intros cv2 cfg e [c' w'] Hstart. apply Hgen. right.
    rewrite start_outcome in Hstart. cbv zeta in Hstart. simpl config in Hstart.
    destruct (String.eqb (mode cfg) "rtsp").
    { destruct (VideoCapture_isOpened cv2 (rtsp_url cfg)); inversion Hstart; reflexivity. }
    destruct (String.eqb (mode cfg) "adb"); [|inversion Hstart; reflexivity].
    destruct (adb_devices w) as [out|]; [|inversion Hstart; reflexivity].
    destruct (str_in "device" (split_newline_last out)); [|inversion Hstart; reflexivity].
    destruct (VideoCapture_isOpened cv2 _); inversion Hstart; reflexivity.
Qed.

(** X9. A read that returns nothing keeps the latest frame: the slot
    and the arrays are as before, and [latest_frame] answers as it
    would have before the read. *)
Theorem failed_read_keeps_latest σ :
  fst (read_frame σ) = Return None ->
  _latest_frame (fst (snd (read_frame σ))) = _latest_frame (fst σ) /\
  heap (snd (snd (read_frame σ))) = heap (snd σ) /\
  fst (latest_frame (snd (read_frame σ))) = fst (latest_frame σ).
Proof.
  destruct σ as [c w]. rewrite read_frame_outcome.
  assert (Hl : forall c0 w1 w2, heap w1 = heap w2 ->
                 fst (latest_frame (c0, w1)) = fst (latest_frame (c0, w2))).
  { intros c0 w1 w2 E. rewrite !latest_frame_outcome, E.
    destruct (_latest_frame c0) as [r|]; [|reflexivity].
    destruct (heap w2 !! r); reflexivity. }
  destruct (_cap c) as [cap|]; [|auto].
  destruct (_running c); simpl; [|auto].
  destruct (vc_opened cap); [|intros _; repeat split; apply Hl; reflexivity].
  destruct (camera w) as [|[img|] rest]; simpl; intros H; try discriminate;
    repeat split; apply Hl; reflexivity.
Qed.

(** X10. The object that [read_frame] returns is the one it keeps in
    the slot: what the caller assigns to the returned array is what
    [latest_frame] copies afterwards. *)
Theorem read_frame_shares_array c w r σ1 a' :
  read_frame (c, w) = (Return (Some r), σ1) ->
  _latest_frame (fst σ1) = Some r /\
  exists r',
    fst (latest_frame (fst σ1, ndarray_assign r a' (snd σ1))) = Return (Some r') /\
    r' <> r /\
    heap (snd (snd (latest_frame (fst σ1, ndarray_assign r a' (snd σ1))))) !! r' = Some a'.
Proof.
  intros Hread.
  destruct (read_frame_success _ _ _ _ Hread) as (cap & img & rest & _ & _ & _ & -> & ->).
  simpl. split; [reflexivity|].
  rewrite latest_frame_outcome. simpl.
  assert (Hlen : (length (heap w) < length (heap w ++ [img]))%nat)
    by (rewrite length_app; simpl; lia).
  rewrite list_lookup_insert_eq by exact Hlen. simpl.
  eexists. split; [reflexivity|]. rewrite length_insert. split; [lia|].
  rewrite lookup_app_r by (rewrite length_insert; lia).
  rewrite length_insert. replace (_ - _)%nat with 0%nat by lia. reflexivity.
Qed.

(** X11. After reading through a camera feed, the slot holds the last
    image the feed delivered, whatever failures came before or after
    it; every delivered image got an array of its own and the arrays
    that existed before are untouched. *)
Theorem read_frames_latest cap feed : forall c w rest,
  _cap c = Some cap -> _running c = true -> vc_opened cap = true ->
  camera w = feed ++ rest ->
  exists results c' w',
    read_frames (length feed) (c, w) = (Return results, (c', w')) /\
    length results = length feed /\
    camera w' = rest /\
    match last_image feed with
    | Some img => exists r, _latest_frame c' = Some r /\ heap w' !! r = Some img
    | None => _latest_frame c' = _latest_frame c
    end /\
    heap w' = heap w ++ images feed.
Proof.
  induction feed as [|x feed IH]; intros c w rest Hcap Hrun Hop Hcam.
  - exists [], c, w. simpl. rewrite app_nil_r. auto.
  - cbn [length read_frames]. rewrite bind_eq, read_frame_outcome, Hcap, Hrun, Hop, Hcam.
    simpl. destruct x as [img|].
    + edestruct (IH (set_latest_frame (Some (length (heap w))) c)
                    (set_heap (fun h => h ++ [img])
                       (emit (EvRead (vc_source cap) true)
                             (set_camera (fun _ => feed ++ rest) w))) rest)
        as (rs & c' & w' & Hrd & Hlen & Hc & Hlast & Hheap); try reflexivity; try assumption.
      rewrite bind_eq, Hrd. simpl.
      eexists _, c', w'. split; [reflexivity|]. split; [simpl; lia|]. split; [exact Hc|].
      simpl in Hheap. split.
      * destruct (last_image feed) as [img'|]; [exact Hlast|].
        simpl in Hlast. exists (length (heap w)). split; [exact Hlast|].
        rewrite Hheap. rewrite lookup_app_l by (rewrite length_app; simpl; lia).
        rewrite lookup_app_r by lia. replace (_ - _)%nat with 0%nat by lia. reflexivity.
      * rewrite Hheap. unfold images. simpl. rewrite <- app_assoc. reflexivity.
    + edestruct (IH c (logger "WARNING" "Failed to read frame"
                         (emit (EvRead (vc_source cap) false)
                               (set_camera (fun _ => feed ++ rest) w))) rest)
        as (rs & c' & w' & Hrd & Hlen & Hc & Hlast & Hheap); try reflexivity; try assumption.
      rewrite bind_eq, Hrd. simpl.
      eexists _, c', w'. split; [reflexivity|]. split; [simpl; lia|]. split; [exact Hc|].
      split; [|exact Hheap].
      destruct (last_image feed); exact Hlast.
Qed.

End CaptureExtras.

Section StreamExtras.
Variable cv2 : Cv2.
Import Stream.

Lemma globals_eta g : mk_Globals (objects g) (_frame_source g) (world g) = g.
Proof. destruct g; reflexivity. Qed.

(** Reading the latest frame of the object behind [src]. *)
Lemma call_latest_frame g src o :
  objects g !! src = Some o ->
  call src Capture.latest_frame g =
  match Capture._latest_frame o with
  | Some r =>
      match heap (world g) !! r with
      | Some a =>
          (Return (Some (length (heap (world g)))),
           mk_Globals (objects g) (_frame_source g)
                      (set_heap (fun h => h ++ [a]) (world g)))
      | None => (Raise (RuntimeError "invalid array reference"), g)
      end
  | None => (Return None, g)
  end.
Proof.
  intros Ho. rewrite (call_outcome _ _ _ _ Ho), latest_frame_outcome.
  destruct (Capture._latest_frame o) as [r|]; simpl.
  - destruct (heap (world g) !! r); simpl; rewrite list_insert_id by exact Ho;
      [reflexivity | apply f_equal, globals_eta].
  - rewrite list_insert_id by exact Ho. apply f_equal, globals_eta.
Qed.

Lemma lookup_snoc_length {A} (l : list A) (x : A) : (l ++ [x]) !! length l = Some x.
Proof. rewrite lookup_app_r by lia. replace (_ - _)%nat with 0%nat by lia. reflexivity. Qed.

Lemma snapshot_outcome g src o r a :
  _frame_source g = Some src -> objects g !! src = Some o ->
  Capture._latest_frame o = Some r -> heap (world g) !! r = Some a ->
  snapshot cv2 g =
  (match imencode cv2 ".jpg" a 90 with
   | Some jpeg => Return (StreamingResponse [jpeg] "image/jpeg")
   | None => Return (JSONResponse [("error", "Failed to encode frame")])
   end,
   mk_Globals (objects g) (_frame_source g) (set_heap (fun h => h ++ [a]) (world g))).
Proof.
  intros Hs Ho Hslot Ha. unfold snapshot. rewrite bind_eq. unfold get. cbv beta iota.
  rewrite Hs, bind_eq, (call_latest_frame _ _ _ Ho), Hslot, Ha.
  rewrite bind_eq. unfold deref. rewrite bind_eq. unfold get. cbv beta iota. simpl.
  rewrite lookup_snoc_length. simpl.
  destruct (imencode cv2 ".jpg" a 90); rewrite ?Hs; reflexivity.
Qed.

(** X12. [status] answers without changing anything: false when no
    source is attached, otherwise whether the attached object is
    running, so false again once it has been stopped and true once it
    has been started. *)
Theorem status_reports_running g :
  (_frame_source g = None -> status g = (Return false, g)) /\
  (forall src o,
     _frame_source g = Some src -> objects g !! src = Some o ->
     status g = (Return (Capture.is_running o), g) /\
     fst (status (snd (call src Capture.stop g))) = Return false /\
     (fst (call src (Capture.start cv2) g) = Return tt ->
      fst (status (snd (call src (Capture.start cv2) g))) = Return true)).
Proof.
  assert (Hst : forall g0 src o, _frame_source g0 = Some src -> objects g0 !! src = Some o ->
                  status g0 = (Return (Capture.is_running o), g0)).
  { intros g0 src o Hs Ho. unfold status. rewrite bind_eq. unfold get. cbv beta iota.
    rewrite Hs, bind_eq, (call_outcome _ _ _ _ Ho). simpl.
    rewrite list_insert_id by exact Ho. rewrite globals_eta. reflexivity. }
  split.
  - intros Hs. unfold status. rewrite bind_eq. unfold get. cbv beta iota. rewrite Hs.
    reflexivity.
  - intros src o Hs Ho. split; [apply (Hst g src o); assumption|].
    assert (Hlen : (src < length (objects g))%nat) by (eapply lookup_lt_Some; exact Ho).
    split.
    + rewrite (call_outcome _ _ _ _ Ho), stop_outcome. simpl.
      erewrite (Hst _ src); [| exact Hs | simpl; apply list_lookup_insert_eq, Hlen].
      reflexivity.
    + rewrite (call_outcome _ _ _ _ Ho).
      destruct (Capture.start cv2 (o, world g)) as [r [c' w']] eqn:Hstart. simpl.
      intros ->.
      erewrite (Hst _ src); [| exact Hs | simpl; apply list_lookup_insert_eq, Hlen].
      rewrite start_outcome in Hstart. cbv zeta in Hstart.
      destruct (String.eqb (mode (Capture.config o)) "rtsp").
      { destruct (VideoCapture_isOpened cv2 _); inversion Hstart; reflexivity. }
      destruct (String.eqb (mode (Capture.config o)) "adb"); [|discriminate Hstart].
      destruct (adb_devices (world g)) as [out|]; [|discriminate Hstart].
      destruct (str_in "device" (split_newline_last out)); [|discriminate Hstart].
      destruct (VideoCapture_isOpened cv2 _); inversion Hstart; reflexivity.
Qed.

(** X13. With a frame in the slot that the encoder accepts, the first
    pass of the generator yields one part: the boundary line, the
    content type, the encoded image and a line end.  It costs one
    copy of the frame and changes nothing else. *)
Theorem mjpeg_yields_part quality fuel g src o r a jpeg :
  _frame_source g = Some src -> objects g !! src = Some o ->
  Capture._latest_frame o = Some r -> heap (world g) !! r = Some a ->
  imencode cv2 ".jpg" a quality = Some jpeg ->
  _generate_mjpeg cv2 quality (S fuel) g =
    (Return (Some (mjpeg_part jpeg)),
     mk_Globals (objects g) (_frame_source g) (set_heap (fun h => h ++ [a]) (world g))) /\
  length (mjpeg_part jpeg) = (39 + length jpeg)%nat.
Proof.
  intros Hs Ho Hslot Ha Henc. split.
  - cbn [_generate_mjpeg]. rewrite bind_eq. unfold _generate_mjpeg_iteration.
    rewrite bind_eq. unfold get. cbv beta iota.
    rewrite Hs, bind_eq, (call_latest_frame _ _ _ Ho), Hslot, Ha.
    rewrite bind_eq. unfold deref. rewrite bind_eq. unfold get. cbv beta iota. simpl.
    rewrite lookup_snoc_length. simpl. rewrite Henc, ?Hs. reflexivity.
  - unfold mjpeg_part. rewrite !length_app.
    change (length (bytes_of ("--frame" +:+ CRLF))) with 9%nat.
    change (length (bytes_of ("Content-Type: image/jpeg" +:+ CRLF +:+ CRLF))) with 28%nat.
    change (length (bytes_of CRLF)) with 2%nat. lia.
Qed.

(** X14. [snapshot] does not disturb what it shows: the attached
    object, the source and the arrays that exist stay as they are, so
    a second [snapshot] returns what the first returned. *)
Theorem snapshot_repeatable g src o r a :
  _frame_source g = Some src -> objects g !! src = Some o ->
  Capture._latest_frame o = Some r -> heap (world g) !! r = Some a ->
  objects (snd (snapshot cv2 g)) = objects g /\
  _frame_source (snd (snapshot cv2 g)) = _frame_source g /\
  (forall i b, heap (world g) !! i = Some b ->
               heap (world (snd (snapshot cv2 g))) !! i = Some b) /\
  trace (world (snd (snapshot cv2 g))) = trace (world g) /\
  fst (snapshot cv2 (snd (snapshot cv2 g))) = fst (snapshot cv2 g).
Proof.
  intros Hs Ho Hslot Ha.
  rewrite (snapshot_outcome g src o r a Hs Ho Hslot Ha). simpl.
  repeat split.
  - intros i b Hi. rewrite lookup_app_l; [exact Hi|]. eapply lookup_lt_Some, Hi.
  - erewrite snapshot_outcome; [reflexivity | exact Hs | exact Ho | exact Hslot |].
    simpl. rewrite lookup_app_l; [exact Ha|]. eapply lookup_lt_Some, Ha.
Qed.

(** X15. A frame the encoder refuses is skipped without a word: as
    long as the slot holds it, the generator yields nothing and raises
    nothing, however many passes it makes. *)
Theorem mjpeg_skips_unencodable quality src o r a fuel : forall g,
  _frame_source g = Some src -> objects g !! src = Some o ->
  Capture._latest_frame o = Some r -> heap (world g) !! r = Some a ->
  imencode cv2 ".jpg" a quality = None ->
  fst (_generate_mjpeg cv2 quality fuel g) = Return None /\
  objects (snd (_generate_mjpeg cv2 quality fuel g)) = objects g /\
  trace (world (snd (_generate_mjpeg cv2 quality fuel g))) = trace (world g).
Proof.
  induction fuel as [|fuel IH]; intros g Hs Ho Hslot Ha Henc.
  - simpl. auto.
  - cbn [_generate_mjpeg]. rewrite bind_eq. unfold _generate_mjpeg_iteration.
    rewrite bind_eq. unfold get. cbv beta iota.
    rewrite Hs, bind_eq, (call_latest_frame _ _ _ Ho), Hslot, Ha.
    rewrite bind_eq. unfold deref. rewrite bind_eq. unfold get. cbv beta iota. simpl.
    rewrite lookup_snoc_length. simpl. rewrite Henc. simpl.
    match goal with |- context [_generate_mjpeg cv2 quality fuel ?g1] =>
      destruct (IH g1) as (H1 & H2 & H3) end; try assumption.
    { simpl. rewrite lookup_app_l; [exact Ha|]. eapply lookup_lt_Some, Ha. }
    simpl in H2, H3. auto.
Qed.

End StreamExtras.

Section MainExtras.
Variable cv2 : Cv2.
Import Main.

Lemma process_eta p : mk_Process (py p) (storage_var p) = p.
Proof. destruct p; reflexivity. Qed.

Lemma read_frame_returns σ : exists r, fst (Capture.read_frame σ) = Return r.
Proof.
  destruct σ as [c w]. rewrite read_frame_outcome.
  destruct (Capture._cap c) as [cap|]; [|eauto].
  destruct (Capture._running c); simpl; [|eauto].
  destruct (Capture.vc_opened cap); [|eauto].
  destruct (camera w) as [|[img|] rest]; eauto.
Qed.

(** One pass through the loop when no signal is pending. *)
Lemma capture_loop_step capture sigterm i fuel p o :
  Stream.objects (py p) !! capture = Some o ->
  signals_at sigterm capture i = None ->
  capture_loop cv2 capture sigterm i (S fuel) p =
  if Capture._running o then
    let read := Capture.read_frame (o, Stream.world (py p)) in
    let p1 := mk_Process
                (Stream.mk_Globals (<[capture := fst (snd read)]> (Stream.objects (py p)))
                                   (Stream._frame_source (py p)) (snd (snd read)))
                (storage_var p) in
    match fst read with
    | Return (Some fr) =>
        (on_frame cv2 fr ;; capture_loop cv2 capture sigterm (S i) fuel) p1
    | Return None => capture_loop cv2 capture sigterm (S i) fuel p1
    | Raise e => (Raise e, p1)
    end
  else (Return (Some tt), p).
Proof.
  intros Ho Hsig. unfold capture_loop at 1. rewrite run_loop_S, bind_eq, Hsig.
  change (@mret (M Process) _ unit () p) with (@Return unit (), p). cbv beta iota.
  rewrite bind_eq. unfold compose.
  rewrite (in_stream_call_outcome Capture.self capture o p Ho).
  change (Capture.self (o, Stream.world (py p))) with (Return o, (o, Stream.world (py p))).
  cbn [fst snd]. rewrite list_insert_id by exact Ho.
  rewrite globals_eta, process_eta.
  destruct (Capture._running o); [|reflexivity].
  rewrite bind_eq, (in_stream_call_outcome Capture.read_frame capture o p Ho).
  cbv zeta. destruct (Capture.read_frame (o, Stream.world (py p))) as [[[fr|]|e] [o' w']];
    cbn [fst snd]; try reflexivity.
Qed.

Lemma read_frame_keeps c w :
  let σ' := snd (Capture.read_frame (c, w)) in
  Capture._running (fst σ') = Capture._running c /\
  Capture._cap (fst σ') = Capture._cap c /\
  same_disk w (snd σ').
Proof.
  cbv zeta. rewrite read_frame_outcome. unfold same_disk.
  destruct (Capture._cap c) as [cap|] eqn:Hc; [|simpl; auto].
  destruct (Capture._running c) eqn:Hr; simpl; [|auto].
  destruct (Capture.vc_opened cap); [|simpl; auto].
  destruct (camera w) as [|[img|] rest]; simpl; auto.
Qed.

Lemma on_frame_no_recorder fr p :
  storage_var p = None -> on_frame cv2 fr p = (Return tt, p).
Proof.
  intros Hs. unfold on_frame. rewrite bind_eq. unfold get. cbv beta iota. rewrite Hs.
  reflexivity.
Qed.

(** X16. Without a recorder the capture loop does not end on its own:
    while no signal arrives it is still running after any number of
    passes, whatever the reads return. *)
Theorem capture_loop_keeps_running capture fuel : forall i p o,
  Stream.objects (py p) !! capture = Some o ->
  Capture._running o = true ->
  storage_var p = None ->
  exists p' o',
    capture_loop cv2 capture None i fuel p = (Return None, p') /\
    Stream.objects (py p') !! capture = Some o' /\
    Capture.is_running o' = true /\
    storage_var p' = None.
Proof.
  induction fuel as [|fuel IH]; intros i p o Ho Hrun Hst.
  - exists p, o. auto.
  - rewrite (capture_loop_step capture None i fuel p o Ho) by reflexivity.
    rewrite Hrun. cbv zeta.
    destruct (read_frame_keeps o (Stream.world (py p))) as (Hr' & _ & _).
    destruct (read_frame_returns (o, Stream.world (py p))) as [r Hret].
    destruct (Capture.read_frame (o, Stream.world (py p))) as [res [o' w']].
    cbn [fst snd] in *. subst res.
    assert (Ho' : <[capture := o']> (Stream.objects (py p)) !! capture = Some o').
    { apply list_lookup_insert_eq. eapply lookup_lt_Some, Ho. }
    destruct r as [fr|].
    + rewrite bind_eq, on_frame_no_recorder by exact Hst.
      eapply IH; [exact Ho' | congruence | exact Hst].
    + eapply IH; [exact Ho' | congruence | exact Hst].
Qed.

(** A [start] that returns leaves the capture running on an opened
    source. *)
Lemma start_returns_running c w c1 w1 :
  Capture.start cv2 (c, w) = (Return tt, (c1, w1)) ->
  Capture._running c1 = true /\
  exists cap, Capture._cap c1 = Some cap /\ Capture.vc_opened cap = true.
Proof.
  rewrite start_outcome. cbv zeta.
  destruct (String.eqb (mode (Capture.config c)) "rtsp").
  { destruct (VideoCapture_isOpened cv2 _); intros [= <- <-]; simpl; eauto. }
  destruct (String.eqb (mode (Capture.config c)) "adb"); [|discriminate].
  destruct (adb_devices w) as [out|]; [|discriminate].
  destruct (str_in "device" (split_newline_last out)); [|discriminate].
  destruct (VideoCapture_isOpened cv2 _); intros [= <- <-]; simpl; eauto.
Qed.

(** X17. Started with local saving, as it is by default, [main] does
    not get past opening the recorder: the output directory it has
    put in the configuration is the [str] of the command line, which
    has no [mkdir].  Once the capture has started, [main] ends with
    this [AttributeError] and exit status 1; no directory, writer or
    server has been asked for, the live view is not attached, and the
    capture is left running on its opened source. *)
Theorem main_save_stops_at_open args w sigterm fuel c1 w1 :
  Namespace.no_save args = false ->
  sigterm <> Some BeforeStart -> sigterm <> Some BeforeOpen ->
  Capture.start cv2 (Capture.__init__ (capture (config_of args)), w) = (Return tt, (c1, w1)) ->
  main cv2 args sigterm fuel (boot w) =
    (Raise (AttributeError "'str' object has no attribute 'mkdir'"),
     mk_Process (Stream.mk_Globals [c1] None w1)
                (Some (Storage.set_fps (Namespace.fps args)
                         (Storage.__init__ (storage (config_of args)))))) /\
  exit_status (fst (main cv2 args sigterm fuel (boot w))) = Some 1 /\
  Capture.is_running c1 = true /\
  exists cap, Capture._cap c1 = Some cap /\ Capture.vc_opened cap = true.
Proof.
  intros Hsave Hs1 Hs2 Hstart.
  assert (Hmain : main cv2 args sigterm fuel (boot w) =
    (Raise (AttributeError "'str' object has no attribute 'mkdir'"),
     mk_Process (Stream.mk_Globals [c1] None w1)
                (Some (Storage.set_fps (Namespace.fps args)
                         (Storage.__init__ (storage (config_of args))))))).
  { rewrite main_eq, bind_eq, deliver_other by exact Hs1.
    rewrite bind_eq, connect_outcome. cbv zeta. rewrite Hstart. cbn [fst snd].
    rewrite bind_eq, deliver_other by exact Hs2.
    rewrite bind_eq. unfold opening. rewrite bind_eq. unfold get. cbv beta iota.
    assert (Hsl : save_locally (config_of args) = true) by (simpl; rewrite Hsave; reflexivity).
    unfold launched. rewrite !Hsl. cbn [storage_var].
    rewrite bind_eq. unfold with_storage. cbn [py Stream.world].
    rewrite open_outcome. reflexivity. }
  rewrite Hmain. split; [reflexivity|]. split; [reflexivity|].
  apply (start_returns_running _ _ _ _ Hstart).
Qed.

(** X18. The signal handler leaves nothing open: afterwards the capture
    is not running and holds no device, the recorder holds no writer,
    and the latest frame is still in its slot. *)
Theorem shutdown_releases capture p o :
  Stream.objects (py p) !! capture = Some o ->
  exists p' o',
    shutdown capture p = (Raise (SystemExit 0), p') /\
    Stream.objects (py p') !! capture = Some o' /\
    Capture.is_running o' = false /\
    Capture._cap o' = None /\
    Capture._latest_frame o' = Capture._latest_frame o /\
    (forall st, storage_var p = Some st ->
       exists st', storage_var p' = Some st' /\ Storage.is_recording st' = false /\
                   Storage.current_file st' = Storage.current_file st) /\
    (storage_var p = None -> storage_var p' = None).
Proof.
  intros Ho.
  assert (Hlen : (capture < length (Stream.objects (py p)))%nat)
    by (eapply lookup_lt_Some, Ho).
  unfold shutdown. rewrite bind_eq. unfold in_world at 1, modify at 1. cbv beta iota.
  rewrite bind_eq.
  erewrite in_stream_call_outcome by (cbn [py Stream.set_world Stream.objects]; exact Ho).
  rewrite stop_outcome. cbn [fst snd py storage_var Stream.objects Stream.set_world
                             Stream._frame_source Stream.world].
  rewrite bind_eq. unfold get. cbv beta iota. rewrite bind_eq. cbn [storage_var].
  destruct (storage_var p) as [st|].
  - unfold with_storage. cbn [py Stream.world]. rewrite close_outcome.
    destruct (Storage._writer st) as [wr|] eqn:Hw; cbn [fst snd];
      (eexists _, _; split; [reflexivity|]; cbn [py Stream.objects Stream.set_world];
       split; [apply list_lookup_insert_eq, Hlen|]; repeat split; try discriminate;
       intros st0 [= <-]; eexists; split; [reflexivity|];
       unfold Storage.is_recording, Storage.current_file; simpl; rewrite ?Hw; auto).
  - eexists _, _. split; [reflexivity|]. cbn [py Stream.objects].
    split; [apply list_lookup_insert_eq, Hlen|]. repeat split; discriminate.
Qed.



(** A method of the capture object that leaves the disk alone does so
    when called through its reference. *)
Lemma in_stream_call_disk {A} capture (m : M Capture.St A) p :
  (forall c w, same_disk w (snd (snd (m (c, w))))) ->
  storage_var (snd (in_stream (Stream.call capture m) p)) = storage_var p /\
  same_disk (Stream.world (py p)) (Stream.world (py (snd (in_stream (Stream.call capture m) p)))).
Proof.
  intros Hm. unfold in_stream, zoom, Stream.call.
  destruct (Stream.objects (py p) !! capture) as [o|]; [|split; [reflexivity|split; reflexivity]].
  specialize (Hm o (Stream.world (py p))).
  destruct (m (o, Stream.world (py p))) as [res [o' w']]. simpl in *. auto.
Qed.

Lemma self_disk c w : same_disk w (snd (snd (Capture.self (c, w)))).
Proof. split; reflexivity. Qed.

Lemma read_frame_disk c w : same_disk w (snd (snd (Capture.read_frame (c, w)))).
Proof. apply (read_frame_keeps c w). Qed.

Lemma stop_disk c w : same_disk w (snd (snd (Capture.stop (c, w)))).
Proof. rewrite stop_outcome. simpl. destruct (Capture._cap c); split; reflexivity. Qed.

Lemma start_disk c w : same_disk w (snd (snd (Capture.start cv2 (c, w)))).
Proof.
  rewrite start_outcome. cbv zeta.
  destruct (String.eqb (mode (Capture.config c)) "rtsp").
  { destruct (VideoCapture_isOpened cv2 _); split; reflexivity. }
  destruct (String.eqb (mode (Capture.config c)) "adb"); [|split; reflexivity].
  destruct (adb_devices w) as [out|]; [|split; reflexivity].
  destruct (str_in "device" (split_newline_last out)); [|split; reflexivity].
  destruct (VideoCapture_isOpened cv2 _); split; reflexivity.
Qed.

Lemma same_disk_trans w1 w2 w3 : same_disk w1 w2 -> same_disk w2 w3 -> same_disk w1 w3.
Proof. unfold same_disk. intros [? ?] [? ?]. split; congruence. Qed.

Lemma shutdown_disk capture p :
  storage_var p = None ->
  storage_var (snd (shutdown capture p)) = None /\
  same_disk (Stream.world (py p)) (Stream.world (py (snd (shutdown capture p)))).
Proof.
  intros Hst. unfold shutdown. rewrite bind_eq. unfold in_world, modify.
  cbv beta iota. rewrite bind_eq.
  match goal with |- context [in_stream (Stream.call capture Capture.stop) ?p1] =>
    destruct (in_stream_call_disk capture Capture.stop p1 stop_disk) as [Hs Hd];
    destruct (in_stream (Stream.call capture Capture.stop) p1) as [[[]|e] p2]
  end; cbn [fst snd py storage_var Stream.set_world Stream.world] in *.
  - rewrite bind_eq. unfold get. cbv beta iota. rewrite bind_eq, Hs, Hst. simpl.
    split; [congruence|]. eapply same_disk_trans; [|exact Hd]. split; reflexivity.
  - split; [congruence|]. eapply same_disk_trans; [|exact Hd]. split; reflexivity.
Qed.

Lemma capture_loop_disk capture sigterm fuel : forall i p,
  storage_var p = None ->
  storage_var (snd (capture_loop cv2 capture sigterm i fuel p)) = None /\
  same_disk (Stream.world (py p))
            (Stream.world (py (snd (capture_loop cv2 capture sigterm i fuel p)))).
Proof.
  induction fuel as [|fuel IH]; intros i p Hst.
  - simpl. split; [exact Hst|split; reflexivity].
  - unfold capture_loop. rewrite run_loop_S, bind_eq.
    assert (Hh : exists r p0,
               match signals_at sigterm capture i with
               | Some handler => handler
               | None => mret ()
               end p = (r, p0) /\
               storage_var p0 = None /\ same_disk (Stream.world (py p)) (Stream.world (py p0))).
    { unfold signals_at. case_decide.
      - destruct (shutdown_disk capture p Hst) as [H1 H2].
        destruct (shutdown capture p) as [r p0]. exists r, p0. auto.
      - exists (Return ()), p. split; [reflexivity|]. split; [exact Hst|split; reflexivity]. }
    destruct Hh as (r & p0 & Hh & Hst0 & Hd0). rewrite Hh.
    destruct r as [[]|e]; [|cbn [snd]; auto].
    rewrite bind_eq. unfold compose.
    destruct (in_stream_call_disk capture Capture.self p0 self_disk) as [Hs1 Hd1].
    destruct (in_stream (Stream.call capture Capture.self) p0) as [[s|e] p1];
      cbn [fst snd] in *.
    2:{ split; [congruence|]. eapply same_disk_trans; eassumption. }
    destruct (Capture._running s).
    2:{ change (snd (@mret (M Process) _ _ (Some ()) p1)) with p1.
        split; [congruence|]. eapply same_disk_trans; eassumption. }
    rewrite bind_eq.
    destruct (in_stream_call_disk capture Capture.read_frame p1 read_frame_disk) as [Hs2 Hd2].
    destruct (in_stream (Stream.call capture Capture.read_frame) p1) as [[frame|e] p2];
      cbn [fst snd] in *.
    2:{ split; [congruence|]. eapply same_disk_trans; [|exact Hd2].
        eapply same_disk_trans; eassumption. }
    assert (Hst2 : storage_var p2 = None) by congruence.
    assert (Hd02 : same_disk (Stream.world (py p)) (Stream.world (py p2))).
    { eapply same_disk_trans; [|exact Hd2]. eapply same_disk_trans; eassumption. }
    rewrite bind_eq.
    assert (Hon : match frame with
                  | Some fr => on_frame cv2 fr
                  | None => mret ()
                  end p2 = (Return (), p2)).
    { destruct frame as [fr|]; [apply on_frame_no_recorder, Hst2 | reflexivity]. }
    rewrite Hon.
    destruct (IH (S i) p2 Hst2) as [H1 H2]. unfold capture_loop in H1, H2.
    split; [exact H1|]. eapply same_disk_trans; eassumption.
Qed.

Lemma keeps_disk_bind {A B} (m : M Process A) (f : A -> M Process B) :
  keeps_disk m -> (forall a, keeps_disk (f a)) -> keeps_disk (m ≫= f).
Proof.
  intros Hm Hf p Hst. rewrite bind_eq. destruct (Hm p Hst) as [H1 H2].
  destruct (m p) as [[a|e] p1]; cbn [snd] in *; [|auto].
  destruct (Hf a p1 H1) as [H3 H4]. split; [exact H3|]. eapply same_disk_trans; eassumption.
Qed.

Lemma keeps_disk_deliver sigterm capture c : keeps_disk (deliver sigterm capture c).
Proof.
  intros p Hst. unfold deliver. case_decide.
  - apply shutdown_disk, Hst.
  - split; [exact Hst|split; reflexivity].
Qed.

Lemma keeps_disk_connect capture : keeps_disk (connect cv2 capture).
Proof.
  intros p Hst. unfold connect, try_except.
  destruct (in_stream_call_disk capture (Capture.start cv2) p start_disk) as [Hs Hd].
  destruct (in_stream (Stream.call capture (Capture.start cv2)) p) as [[[]|e] p1];
    cbn [snd] in *; [split; [congruence|exact Hd]|].
  destruct e; try (split; [cbn [snd]; congruence | exact Hd]).
  split; [simpl; congruence|]. eapply same_disk_trans; [exact Hd|]. split; reflexivity.
Qed.

Lemma keeps_disk_loop capture sigterm i fuel :
  keeps_disk (capture_loop cv2 capture sigterm i fuel).
Proof. intros p Hst. apply capture_loop_disk, Hst. Qed.

(** X20. Started without local saving, the program never creates a
    recorder and leaves the files and directories as it found them,
    however long it runs and however it ends. *)
Theorem main_no_save_leaves_disk args sigterm fuel w :
  Namespace.no_save args = true ->
  storage_var (snd (main cv2 args sigterm fuel (boot w))) = None /\
  fs (Stream.world (py (snd (main cv2 args sigterm fuel (boot w))))) = fs w /\
  dirs (Stream.world (py (snd (main cv2 args sigterm fuel (boot w))))) = dirs w.
Proof.
  intros Hsave. rewrite main_eq.
  assert (Hst : storage_var (launched args w) = None).
  { unfold launched. simpl. rewrite Hsave. reflexivity. }
  assert (Hk : keeps_disk
                 (deliver sigterm 0 BeforeStart ;;
                  connect cv2 0 ;;
                  deliver sigterm 0 BeforeOpen ;;
                  opening cv2 (config_of args) ;;
                  deliver sigterm 0 BeforeStreaming ;;
                  modify (announce (config_of args) 0) ;;
                  capture_loop cv2 0 (in_loop sigterm) 0 fuel)).
  { apply keeps_disk_bind; [apply keeps_disk_deliver|intros _].
    apply keeps_disk_bind; [apply keeps_disk_connect|intros _].
    apply keeps_disk_bind; [apply keeps_disk_deliver|intros _].
    apply keeps_disk_bind.
    { intros p Hp. unfold opening. rewrite bind_eq. unfold get. cbv beta iota. rewrite Hp.
      split; [exact Hp|split; reflexivity]. }
    intros _. apply keeps_disk_bind; [apply keeps_disk_deliver|intros _].
    apply keeps_disk_bind; [|intros _; apply keeps_disk_loop].
    intros p Hp. unfold modify, announce. cbn [snd].
    destruct (enable_streaming (config_of args)); (split; [exact Hp|split; reflexivity]). }
  destruct (Hk (launched args w) Hst) as [H1 [H2 H3]].
  split; [exact H1|]. split; [exact H2 | exact H3].
Qed.

(** X21. Started without local saving, once the capture has started
    [main] enters its loop with no recorder; the live view is attached
    to the capture object, and the server asked for on the port of the
    command line, unless streaming was switched off; the [status]
    route then reports a running capture exactly when the live view is
    attached. *)
Theorem main_startup_no_save args w c1 w1 :
  Namespace.no_save args = true ->
  Capture.start cv2 (Capture.__init__ (capture (config_of args)), w) = (Return tt, (c1, w1)) ->
  exists p,
    main cv2 args None 0 (boot w) = (Return None, p) /\
    Stream.objects (py p) = [c1] /\
    storage_var p = None /\
    Stream._frame_source (py p) = (if Namespace.no_stream args then None else Some 0%nat) /\
    trace (Stream.world (py p)) =
      trace w1 ++ (if Namespace.no_stream args then []
                   else [EvServe "0.0.0.0" (Namespace.stream_port args)]) /\
    fst (Stream.status (py p)) = Return (negb (Namespace.no_stream args)).
Proof.
  intros Hsave Hstart.
  destruct (start_returns_running _ _ _ _ Hstart) as [Hrun _].
  rewrite main_eq, bind_eq, deliver_other by discriminate.
  rewrite bind_eq, connect_outcome. cbv zeta. rewrite Hstart. cbn [fst snd].
  rewrite bind_eq, deliver_other by discriminate.
  rewrite bind_eq. unfold opening. rewrite bind_eq. unfold get. cbv beta iota.
  assert (Hsl : save_locally (config_of args) = false) by (simpl; rewrite Hsave; reflexivity).
  unfold launched. rewrite !Hsl. cbn [storage_var].
  change (@mret (M Process) _ unit ()
            (mk_Process (Stream.mk_Globals [c1] None w1) None))
    with (@Return unit (), mk_Process (Stream.mk_Globals [c1] None w1) None).
  cbv beta iota.
  rewrite bind_eq, deliver_other by discriminate.
  rewrite bind_eq. unfold modify. cbv beta iota.
  eexists. split; [reflexivity|].
  unfold announce. simpl enable_streaming.
  destruct (Namespace.no_stream args); simpl; rewrite ?app_nil_r.
  - repeat split; reflexivity.
  - repeat split; try reflexivity.
    unfold Capture.is_running. rewrite Hrun. reflexivity.
Qed.



End MainExtras.

(** ** Instances of the further properties *)

Lemma recorder_invariant_witness :
  Storage.config (fst recorder_1mb) = config_1mb /\ recorder_inv (fst recorder_1mb).
Proof.
  apply (recorder_invariant cv_ok config_1mb recorder_1mb).
  unfold recorder_1mb. apply rr_open, rr_init.
Defined.

Lemma write_frames_in_order_witness :
  exists s' w',
    write_frames cv_ok [frame_hd; frame_hd2] recorder_unlimited = (Return tt, (s', w')) /\
    fs w' !! writer_path = Some (mk_File 2097196 [frame_hd; frame_hd2]).
Proof.
  destruct (write_frames_in_order cv_ok [frame_hd; frame_hd2] (fst recorder_unlimited)
              (snd recorder_unlimited) writer_1mb (mk_File 44 []))
    as (s' & w' & Hrun & _ & _ & _ & Hfile & _).
  - reflexivity.
  - reflexivity.
  - repeat constructor.
  - vm_compute. discriminate.
  - vm_compute. reflexivity.
  - exists s', w'. split; [exact Hrun | exact Hfile].
Defined.


Lemma rotation_same_second_reuses_path_witness :
  exists s' w',
    Storage.write_frame cv_ok frame_hd recorder_1mb = (Return tt, (s', w')) /\
    Storage.current_file s' = Storage.current_file (fst recorder_1mb) /\
    fs w' !! writer_path = Some (mk_File 44 []).
Proof.
  destruct (rotation_same_second_reuses_path cv_ok (fst recorder_1mb) (snd recorder_1mb)
              writer_1mb frame_hd (mk_File 1048620 [frame_hd]) recordings)
    as (s' & w' & Hrun & Hpath & _ & _ & Hfile).
  - reflexivity.
  - repeat split; vm_compute; reflexivity.
  - reflexivity.
  - reflexivity.
  - vm_compute. reflexivity.
  - vm_compute. discriminate.
  - reflexivity.
  - exists s', w'. split; [exact Hrun|]. split; [exact Hpath | exact Hfile].
Defined.

Lemma open_close_lifecycle_witness :
  (Storage.is_recording (fst recorder_1mb) = true /\
   Storage.is_recording (fst (snd (Storage.close recorder_1mb))) = false) /\
  exists path σ1,
    Storage.open cv_ok 1280 720 30 (Storage.__init__ config_cwd, world0) = (Return path, σ1) /\
    Path_str path = "routeball_20240101_120000.mp4" /\
    fs (snd σ1) !! "routeball_20240101_120000.mp4" = Some (mk_File 44 []).
Proof.
  split.
  - unfold recorder_1mb.
    destruct (Storage.open cv_ok 1280 720 30 (Storage.__init__ config_1mb, world0))
      as [r σ1] eqn:Hopen.
    assert (exists path, r = Return path) as [path ->].
    { vm_compute in Hopen. injection Hopen as <- _. eauto. }
    destruct (open_close_lifecycle cv_ok _ _ _ _ _ _ _ Hopen)
      as (dir & _ & _ & Hrec & _ & _ & _ & _ & Hclosed & _).
    split; [exact Hrec | exact Hclosed].
  - destruct (Storage.open cv_ok 1280 720 30 (Storage.__init__ config_cwd, world0))
      as [r σ1] eqn:Hopen.
    assert (exists path, r = Return path) as [path ->].
    { vm_compute in Hopen. injection Hopen as <- _. eauto. }
    destruct (open_close_lifecycle cv_ok _ _ _ _ _ _ _ Hopen)
      as (dir & Hdir & Hpath & _ & _ & _ & _ & Hfile & _).
    injection Hdir as <-.
    assert (Hstr : Path_str path = "routeball_20240101_120000.mp4")
      by (rewrite Hpath; reflexivity).
    exists path, σ1. split; [reflexivity|]. split; [exact Hstr|].
    rewrite <- Hstr. exact Hfile.
Defined.

Lemma start_postconditions_witness :
  Capture.is_running
    (fst (snd (Capture.start cv_ok (Capture.__init__ default_CaptureConfig, world0)))) = true.
Proof.
  destruct (start_postconditions cv_ok (Capture.__init__ default_CaptureConfig) world0 _ _ _
              eq_refl) as (_ & _ & _ & Hrun & _).
  exact Hrun.
Defined.

Lemma start_refuses_early_witness :
  fst (Capture.start cv_ok (Capture.__init__ capture_config_usb, world0))
    = Raise (ValueError "Unknown capture mode: usb") /\
  fst (Capture.start cv_ok (Capture.__init__ default_CaptureConfig, world_no_device))
    = Raise (ConnectionError "No ADB device found. Connect glasses via USB or WiFi ADB.").
Proof.
  split.
  - destruct (start_refuses_early cv_ok (Capture.__init__ capture_config_usb) world0)
      as [Hmode _].
    rewrite Hmode; [reflexivity | |]; intros H; vm_compute in H; discriminate H.
  - destruct (start_refuses_early cv_ok (Capture.__init__ default_CaptureConfig)
                world_no_device) as [_ Hdev].
    erewrite Hdev; reflexivity.
Defined.

Lemma read_frame_inactive_witness :
  Capture.read_frame (Capture.__init__ default_CaptureConfig, world0) =
    (Return None, (Capture.__init__ default_CaptureConfig, world0)) /\
  fst (Capture.read_frame
         (snd (Capture.start cv_ok (Capture.__init__ default_CaptureConfig, world_no_device))))
    = Return None.
Proof.
  split.
  - apply (read_frame_inactive (Capture.__init__ default_CaptureConfig) world0).
    left. reflexivity.
  - destruct (read_frame_inactive (Capture.__init__ default_CaptureConfig) world_no_device)
      as (_ & _ & Hfail).
    erewrite (Hfail cv_ok default_CaptureConfig); reflexivity.
Defined.

Lemma failed_read_keeps_latest_witness :
  Capture._latest_frame
    (fst (snd (Capture.read_frame (snd (Capture.read_frame (capture_running, world0))))))
    = Some 0%nat.
Proof.
  destruct (failed_read_keeps_latest (snd (Capture.read_frame (capture_running, world0))))
    as (Hslot & _ & _).
  - reflexivity.
  - rewrite Hslot. reflexivity.
Defined.

Lemma read_frame_shares_array_witness :
  exists r',
    fst (Capture.latest_frame
           (fst (snd (Capture.read_frame (capture_running, world0))),
            Capture.ndarray_assign 0 frame_small
              (snd (snd (Capture.read_frame (capture_running, world0))))))
      = Return (Some r') /\
    r' <> 0%nat.
Proof.
  destruct (read_frame_shares_array capture_running world0 0%nat _ frame_small eq_refl)
    as (_ & r' & Hl & Hne & _).
  exists r'. split; [exact Hl | exact Hne].
Defined.

Lemma read_frames_latest_witness :
  exists results c' w',
    read_frames 2 (capture_running, world0) = (Return results, (c', w')) /\
    camera w' = [] /\
    exists r, Capture._latest_frame c' = Some r /\ heap w' !! r = Some frame_hd.
Proof.
  destruct (read_frames_latest camera_rtsp [Some frame_hd; None] capture_running world0 [])
    as (results & c' & w' & Hrun & _ & Hcam & Hlast & _); try reflexivity.
  exists results, c', w'. split; [exact Hrun|]. split; [exact Hcam | exact Hlast].
Defined.

Lemma status_reports_running_witness :
  Stream.status globals_detached = (Return false, globals_detached) /\
  Stream.status globals_viewing = (Return true, globals_viewing).
Proof.
  split.
  - apply (status_reports_running cv_ok globals_detached). reflexivity.
  - destruct (status_reports_running cv_ok globals_viewing) as [_ Hsrc].
    destruct (Hsrc 0%nat _ eq_refl eq_refl) as (Hst & _). exact Hst.
Defined.

Lemma mjpeg_yields_part_witness :
  fst (Stream._generate_mjpeg cv_ok 80 1 globals_viewing) = Return (Some (mjpeg_part [1; 2; 3])).
Proof.
  destruct (mjpeg_yields_part cv_ok 80 0 globals_viewing 0%nat _ 0%nat frame_hd [1; 2; 3]
              eq_refl eq_refl eq_refl eq_refl eq_refl) as [Hrun _].
  rewrite Hrun. reflexivity.
Defined.

Lemma snapshot_repeatable_witness :
  fst (Stream.snapshot cv_ok (snd (Stream.snapshot cv_ok globals_viewing))) =
  fst (Stream.snapshot cv_ok globals_viewing).
Proof.
  apply (snapshot_repeatable cv_ok globals_viewing 0%nat _ 0%nat frame_hd
           eq_refl eq_refl eq_refl eq_refl).
Defined.

Lemma mjpeg_skips_unencodable_witness :
  fst (Stream._generate_mjpeg cv_failing 80 5 globals_viewing) = Return None.
Proof.
  apply (mjpeg_skips_unencodable cv_failing 80 0%nat _ 0%nat frame_hd 5 globals_viewing
           eq_refl eq_refl eq_refl eq_refl eq_refl).
Defined.

Lemma capture_loop_keeps_running_witness :
  exists p', capture_loop cv_ok 0 None 0 3 process_streaming = (Return None, p').
Proof.
  destruct (capture_loop_keeps_running cv_ok 0 3 0%nat process_streaming capture_running
              eq_refl eq_refl eq_refl) as (p' & _ & Hrun & _).
  exists p'. exact Hrun.
Defined.

Lemma main_save_stops_at_open_witness :
  fst (Main.main cv_ok args_default None 3 (Main.boot world0)) =
    Raise (AttributeError "'str' object has no attribute 'mkdir'") /\
  Main.exit_status (fst (Main.main cv_ok args_default None 3 (Main.boot world0))) = Some 1.
Proof.
  edestruct (main_save_stops_at_open cv_ok args_default world0 None 3)
    as (Hmain & Hexit & _).
  - reflexivity.
  - discriminate.
  - discriminate.
  - vm_compute. reflexivity.
  - rewrite Hmain. split; [reflexivity | exact Hexit].
Defined.

Lemma shutdown_releases_witness :
  exists p' o',
    Main.shutdown 0 process_recording = (Raise (SystemExit 0), p') /\
    Stream.objects (Main.py p') !! 0%nat = Some o' /\
    Capture.is_running o' = false.
Proof.
  destruct (shutdown_releases 0 process_recording capture_running eq_refl)
    as (p' & o' & Hrun & Ho & Hr & _).
  exists p', o'. split; [exact Hrun|]. split; [exact Ho | exact Hr].
Defined.


Lemma main_no_save_leaves_disk_witness :
  fs (Stream.world (Main.py (snd (Main.main cv_ok args_no_save (Some (Main.InLoop 1)) 4
                                    (Main.boot world0))))) = fs world0.
Proof.
  apply (main_no_save_leaves_disk cv_ok args_no_save (Some (Main.InLoop 1)) 4 world0).
  reflexivity.
Defined.

Lemma main_startup_no_save_witness :
  exists p,
    Main.main cv_ok args_no_save None 0 (Main.boot world0) = (Return None, p) /\
    Stream._frame_source (Main.py p) = Some 0%nat /\
    fst (Stream.status (Main.py p)) = Return true.
Proof.
  edestruct (main_startup_no_save cv_ok args_no_save world0)
    as (p & Hrun & _ & _ & Hsrc & _ & Hstatus).
  - reflexivity.
  - vm_compute. reflexivity.
  - exists p. split; [exact Hrun|]. split; [exact Hsrc | exact Hstatus].
Defined.

